(** * Evidently: report execution and the predicted-vs-actual scatter metric

    A shallow embedding of
    - [src/evidently/metrics/regression_performance/predicted_vs_actual.py]
      (module [PredictedVsActual]) and
    - [src/evidently/report/report.py] (module [ReportPy]),
    with the properties of the specification stated over it.

    Conventions.
    - A Python call that may raise is a value of [outcome]: [Ok v] or
      [Raise e].  A method that mutates [self] and may raise returns the
      mutated object together with the outcome, so that what was mutated
      before the exception stays visible.
    - A pandas DataFrame is a list of column names and a list of rows, every
      row carrying its index label.  Floating point numbers are rationals
      extended with the two infinities and the missing value. *)

From Stdlib Require Import QArith Ascii.
From stdpp Require Import base option list strings gmap sorting.

Set Warnings "-register-all".
Open Scope Z_scope.
Open Scope string_scope.
Open Scope list_scope.

(** ** Exceptions *)

Inductive exn :=
| ValueError (msg : string)      (* [raise ValueError(msg)] *)
| KeyError (key : string)        (* a missing column or dictionary key *)
| NotInList                      (* the ValueError of [list.index] *)
| IndexError                     (* list index out of range *)
| AttributeError (attr : string) (* a method the object does not have *)
| ValidationError (loc : string) (* pydantic: a field failed validation *)
| MissingRepresentation.         (* the raw or aggregated side that was not stored *)

Inductive outcome (A : Type) :=
| Ok (a : A)
| Raise (e : exn).
Arguments Ok {A} a.
Arguments Raise {A} e.

#[global] Instance outcome_ret : MRet outcome := λ A a, Ok a.
#[global] Instance outcome_bind : MBind outcome := λ A B f o,
  match o with
  | Ok a => f a
  | Raise e => Raise e
  end.
#[global] Instance outcome_fmap : FMap outcome := λ A B f o,
  match o with
  | Ok a => Ok (f a)
  | Raise e => Raise e
  end.

Definition is_Ok {A} (o : outcome A) : bool :=
  match o with Ok _ => true | Raise _ => false end.

(** ** pandas *)

Module Pandas.

(** A float cell: a finite number, [np.inf], [-np.inf] or the missing value
    ([np.nan], [None], [NaT]). *)
Inductive cell :=
| Finite (x : Q)
| PosInf
| NegInf
| NaN.

Record Row := { label : Z; values : list cell }.

Record DataFrame := { columns : list string; rows : list Row }.

(** A Series: the values of one column with their index labels. *)
Definition Series := list (Z * cell).

Definition is_na (c : cell) : bool :=
  match c with NaN => true | _ => false end.

Definition is_inf (c : cell) : bool :=
  match c with PosInf | NegInf => true | _ => false end.

Definition is_finite (c : cell) : bool :=
  match c with Finite _ => true | _ => false end.

(** Position of the first column called [name]. *)
Fixpoint column_pos (name : string) (cols : list string) : option nat :=
  match cols with
  | [] => None
  | c :: cols' =>
      if String.eqb name c then Some 0%nat
      else S <$> column_pos name cols'
  end.

Definition cell_at (i : nat) (r : Row) : cell := default NaN (values r !! i).

(** [df.replace([np.inf, -np.inf], np.nan)]: a new frame, every infinite
    cell of every column replaced by the missing value. *)
Definition inf_to_nan (c : cell) : cell := if is_inf c then NaN else c.

Definition clean (r : Row) : Row :=
  {| label := label r; values := map inf_to_nan (values r) |}.

Definition replace_inf (df : DataFrame) : DataFrame :=
  {| columns := columns df; rows := map clean (rows df) |}.

(** Positions of the columns of [subset]; [KeyError] on the first one that
    the frame does not have. *)
Fixpoint positions (subset : list string) (cols : list string) : outcome (list nat) :=
  match subset with
  | [] => Ok []
  | c :: subset' =>
      match column_pos c cols with
      | None => Raise (KeyError c)
      | Some i => cons i <$> positions subset' cols
      end
  end.

Definition complete_at (ps : list nat) (r : Row) : bool :=
  forallb (λ i, negb (is_na (cell_at i r))) ps.

(** [df.dropna(axis=0, how="any", subset=subset)]: the rows with a missing
    value in one of the columns of [subset] are removed. *)
Definition dropna (subset : list string) (df : DataFrame) : outcome DataFrame :=
  ps ← positions subset (columns df);
  Ok {| columns := columns df;
        rows := List.filter (complete_at ps) (rows df) |}.

(** Sorting.  pandas leaves the relative order of rows with equal keys to
    the sorting algorithm; the model sorts stably, by insertion. *)
Fixpoint insert_by {A} (leb : A → A → bool) (x : A) (l : list A) : list A :=
  match l with
  | [] => [x]
  | y :: l' => if leb x y then x :: l else y :: insert_by leb x l'
  end.

Definition sort_by {A} (leb : A → A → bool) (l : list A) : list A :=
  foldr (insert_by leb) [] l.

(** The order of [sort_values]: ascending, missing values last. *)
Definition cell_leb (a b : cell) : bool :=
  match a, b with
  | _, NaN => true
  | NaN, _ => false
  | NegInf, _ => true
  | _, NegInf => false
  | _, PosInf => true
  | PosInf, _ => false
  | Finite x, Finite y => Qle_bool x y
  end.

Definition label_leb (r1 r2 : Row) : bool := Z.leb (label r1) (label r2).

Definition key_leb (i : nat) (r1 r2 : Row) : bool :=
  cell_leb (cell_at i r1) (cell_at i r2).

(** [df.sort_index()] *)
Definition sort_index (df : DataFrame) : DataFrame :=
  {| columns := columns df; rows := sort_by label_leb (rows df) |}.

(** [df.sort_values(by)] *)
Definition sort_values (by_ : string) (df : DataFrame) : outcome DataFrame :=
  match column_pos by_ (columns df) with
  | None => Raise (KeyError by_)
  | Some i => Ok {| columns := columns df; rows := sort_by (key_leb i) (rows df) |}
  end.

(** Adjacent rows are in order (pandas: [is_monotonic_increasing]). *)
Fixpoint is_sorted {A} (leb : A → A → bool) (l : list A) : bool :=
  match l with
  | [] => true
  | x :: l' =>
      match l' with
      | [] => true
      | y :: _ => leb x y && is_sorted leb l'
      end
  end.


Definition complete_column (df : DataFrame) (name : string) : bool :=
  match column_pos name (columns df) with
  | Some i => forallb (λ r, negb (is_na (cell_at i r))) (rows df)
  | None => false
  end.

Definition no_inf (df : DataFrame) : bool :=
  forallb (λ r, forallb (λ c, negb (is_inf c)) (values r)) (rows df).

Definition has_column (df : DataFrame) (name : string) : bool :=
  bool_decide (is_Some (column_pos name (columns df))).

(** The frame is in the order that [sort_index] ([by_ = None]) or
    [sort_values(by_)] would give. *)
Definition ordered (df : DataFrame) (by_ : option string) : bool :=
  match by_ with
  | None => is_sorted label_leb (rows df)
  | Some name =>
      match column_pos name (columns df) with
      | Some i => is_sorted (key_leb i) (rows df)
      | None => false
      end
  end.

(** The values at position [i] of the rows [rs], with their labels. *)
Definition series_of (i : nat) (rs : list Row) : Series :=
  map (λ r, (label r, cell_at i r)) rs.

(** [df[name]] *)
Definition getitem (df : DataFrame) (name : string) : outcome Series :=
  match column_pos name (columns df) with
  | None => Raise (KeyError name)
  | Some i => Ok (series_of i (rows df))
  end.

End Pandas.

(** ** Collaborators of both source files

    [ColumnMapping], [DatasetColumns], [process_columns] and the data
    definition belong to modules of the repository that are imported by the
    two source files; they are taken as an interface. *)

Inductive prediction_name :=
| PredictionColumn (name : string)          (* one column *)
| PredictionColumns (names : list string).  (* a list of columns *)

Record ColumnMapping := {
  cm_target : option string;
  cm_prediction : option prediction_name;
  cm_datetime : option string
}.

Record DatasetUtilityColumns := {
  date : option string;
  target : option string;
  prediction : option prediction_name
}.

Record DatasetColumns := {
  utility_columns : DatasetUtilityColumns;
  feature_names : list string
}.

Class Columns := {
  DataDefinition : Type;
  (** [ColumnMapping()] *)
  default_column_mapping : ColumnMapping;
  process_columns : Pandas.DataFrame → ColumnMapping → DatasetColumns;
  create_data_definition :
    option Pandas.DataFrame → Pandas.DataFrame → ColumnMapping → DataDefinition
}.

Section InputData.
Context `{Columns}.

Record InputData := {
  reference_data : option Pandas.DataFrame;
  current_data : Pandas.DataFrame;
  reference_additional_features : option Pandas.DataFrame;
  current_additional_features : option Pandas.DataFrame;
  column_mapping : ColumnMapping;
  data_definition : DataDefinition
}.

End InputData.

(** ** predicted_vs_actual.py *)

Module PredictedVsActual.
Import Pandas.

(** pydantic's [Config.extra]: what a model does with a keyword argument
    that names none of its fields.  [MetricResult], whose [Config] the result
    class inherits, is not among the source files; pydantic's own default is
    [ExtraIgnore]. *)
Inductive Extra := ExtraIgnore | ExtraAllow | ExtraForbid.

Record PredActualScatter := { predicted : Series; actual : Series }.

Record AggPredActualScatter := { data : gmap string Z }.

(** [Union[PredActualScatter, AggPredActualScatter]] *)
Inductive Scatter :=
| RawScatter (s : PredActualScatter)
| AggScatter (s : AggPredActualScatter).

Record RegressionPredictedVsActualScatterResults := {
  current : Scatter;
  reference : option Scatter
}.

(** The constructor of the pydantic model, applied to keyword arguments:
    [current] is required, [reference] is optional and defaults to [None],
    and any other keyword is treated according to [extra]. *)
Definition is_field (kw : string) : bool :=
  String.eqb kw "current" || String.eqb kw "reference".

Fixpoint lookup_kw (kw : string) (kwargs : list (string * option Scatter)) : option (option Scatter) :=
  match kwargs with
  | [] => None
  | (k, v) :: kwargs' => if String.eqb kw k then Some v else lookup_kw kw kwargs'
  end.

Definition new_Results (extra : Extra) (kwargs : list (string * option Scatter))
  : outcome RegressionPredictedVsActualScatterResults :=
  match extra, List.find (λ kv, negb (is_field kv.1)) kwargs with
  | ExtraForbid, Some kv => Raise (ValidationError kv.1)
  | _, _ =>
      match lookup_kw "current" kwargs with
      | Some (Some cur) =>
          Ok {| current := cur;
                reference := default None (lookup_kw "reference" kwargs) |}
      | _ => Raise (ValidationError "current")
      end
  end.

(** Modelled from the spec: the properties made by [raw_agg_properties],
    which is missing from the source files: each reads one side of the result
    as raw or as aggregated data, [selecting the wrong branch ... is a
    contract violation and fails with MissingRepresentationError], and the
    optional side reads as [None] when it is absent. *)
Definition as_raw (s : Scatter) : outcome PredActualScatter :=
  match s with
  | RawScatter r => Ok r
  | AggScatter _ => Raise MissingRepresentation
  end.

Definition as_agg (s : Scatter) : outcome AggPredActualScatter :=
  match s with
  | AggScatter a => Ok a
  | RawScatter _ => Raise MissingRepresentation
  end.

Definition current_raw (r : RegressionPredictedVsActualScatterResults) := as_raw (current r).
Definition current_agg (r : RegressionPredictedVsActualScatterResults) := as_agg (current r).

Definition reference_raw (r : RegressionPredictedVsActualScatterResults)
  : outcome (option PredActualScatter) :=
  match reference r with
  | None => Ok None
  | Some s => Some <$> as_raw s
  end.

Definition reference_agg (r : RegressionPredictedVsActualScatterResults)
  : outcome (option AggPredActualScatter) :=
  match reference r with
  | None => Ok None
  | Some s => Some <$> as_agg s
  end.

Record Options := { agg_data : bool }.

(** The metric object: its options are all the state [calculate] reads. *)
Record RegressionPredictedVsActualScatter := { get_options : Options }.

(** [_make_df_for_plot] *)
Definition _make_df_for_plot (df : DataFrame) (target_name prediction_name : string)
    (datetime_column_name : option string) : outcome DataFrame :=
  let result := replace_inf df in
  match datetime_column_name with
  | Some datetime_column_name =>
      result ← dropna [target_name; prediction_name; datetime_column_name] result;
      sort_values datetime_column_name result
  | None =>
      result ← dropna [target_name; prediction_name] result;
      Ok (sort_index result)
  end.


Section Calculate.
Context `{Columns}.
Variable extra : Extra.

(** [PredActualScatter(predicted=df[prediction_name], actual=df[target_name])] *)
Definition scatter_of (df : DataFrame) (target_name prediction_name : string)
  : outcome PredActualScatter :=
  p ← getitem df prediction_name;
  a ← getitem df target_name;
  Ok {| predicted := p; actual := a |}.

(** [RegressionPredictedVsActualScatter.calculate] *)
Definition calculate (self : RegressionPredictedVsActualScatter) (data : InputData)
  : outcome RegressionPredictedVsActualScatterResults :=
  let dataset_columns := process_columns (current_data data) (column_mapping data) in
  let target_name := target (utility_columns dataset_columns) in
  let prediction_name := prediction (utility_columns dataset_columns) in
  let curr_df := current_data data in
  let ref_df := reference_data data in
  match target_name, prediction_name with
  | None, _ | _, None =>
      Raise (ValueError "The columns 'target' and 'prediction' columns should be present")
  | Some _, Some (PredictionColumns _) =>
      Raise (ValueError "Expect one column for prediction. List of columns was provided.")
  | Some target_name, Some (PredictionColumn prediction_name) =>
      if negb (agg_data (get_options self)) then
        curr_df ← _make_df_for_plot curr_df target_name prediction_name None;
        current_scatter ← scatter_of curr_df target_name prediction_name;
        reference_scatter ←
          match ref_df with
          | None => Ok None
          | Some ref_df =>
              ref_df ← _make_df_for_plot ref_df target_name prediction_name None;
              Some <$> scatter_of ref_df target_name prediction_name
          end;
        new_Results extra
          [("current", Some (RawScatter current_scatter));
           ("reference", RawScatter <$> reference_scatter)]
      else
        let current_agg := {| data := {[ "a" := 1; "b" := 2 ]} |} in
        let reference_agg :=
          match ref_df with
          | None => None
          | Some _ => Some {| data := {[ "a" := 5; "b" := 2 ]} |}
          end in
        new_Results extra
          [("current", Some (AggScatter current_agg));
           ("reference_agg", AggScatter <$> reference_agg)]
  end.

(** *** The specification's words, for comparison with the code *)

(** The position of a column that the frame has. *)
Definition pos (df : DataFrame) (name : string) : nat :=
  default 0%nat (column_pos name (columns df)).

(** The raw path as the specification words it: rows with a non-finite or
    missing target or prediction are dropped ([kept_rows]), then the rows are
    ordered by the time column if one is configured and by index otherwise
    ([spec_raw_rows]), and packaged as predicted and actual values. *)
Definition kept_rows (df : DataFrame) (target_name prediction_name : string) : list Row :=
  List.filter (λ r, is_finite (cell_at (pos df target_name) r)
                    && is_finite (cell_at (pos df prediction_name) r)) (rows df).

Definition spec_raw_rows (df : DataFrame) (target_name prediction_name : string)
    (time : option string) : list Row :=
  match time with
  | Some time => sort_by (key_leb (pos df time)) (kept_rows df target_name prediction_name)
  | None => sort_by label_leb (kept_rows df target_name prediction_name)
  end.

Definition spec_raw_scatter (df : DataFrame) (target_name prediction_name : string)
    (time : option string) : Scatter :=
  let rs := spec_raw_rows df target_name prediction_name time in
  RawScatter {| predicted := series_of (pos df prediction_name) rs;
                actual := series_of (pos df target_name) rs |}.

Definition spec_raw_result (data : InputData) (target_name prediction_name : string)
    (time : option string) : RegressionPredictedVsActualScatterResults :=
  {| current := spec_raw_scatter (current_data data) target_name prediction_name time;
     reference := (λ ref, spec_raw_scatter ref target_name prediction_name time)
                    <$> reference_data data |}.

End Calculate.

End PredictedVsActual.

(** ** report.py *)

Module ReportPy.
Import Pandas.

Definition UUID := N.
Definition datetime := Z.

(** Modelled from the spec: the [Metric] class, which is missing from the
    source files: a metric has an [id: stable identifier (class/type-derived)]
    and its options, and [identity is derived from type, not instance
    identity]: two metrics are the same when class and fields agree. *)
Record Metric := { class_name : string; fields : list (string * string) }.

#[global] Instance Metric_eq_dec : EqDecision Metric.
Proof. solve_decision. Defined.

Section Objects.
Context `{Columns}.

(** The objects that can occur in a specification list or come out of a
    preset or a generator.  [name] is what [str] prints for the object. *)
Inductive PyObj :=
| AMetric (m : Metric)
| APreset (name : string) (generate_metrics : InputData → DatasetColumns → list PyObj)
| AGenerator (name : string) (generate : DatasetColumns → list PyObj)
| AnObject (name : string).

(** [isinstance(o, Metric)] *)
Definition is_Metric (o : PyObj) : bool :=
  match o with AMetric _ => true | _ => false end.

(** [o1 == o2]: metrics compare by value, any other object is equal to
    itself only and is recognised by its name. *)
Definition py_eqb (o1 o2 : PyObj) : bool :=
  match o1, o2 with
  | AMetric m1, AMetric m2 => bool_decide (m1 = m2)
  | APreset n1 _, APreset n2 _ => String.eqb n1 n2
  | AGenerator n1 _, AGenerator n2 _ => String.eqb n1 n2
  | AnObject n1, AnObject n2 => String.eqb n1 n2
  | _, _ => false
  end.

(** [l.index(o)] *)
Fixpoint index (o : PyObj) (l : list PyObj) : outcome Z :=
  match l with
  | [] => Raise NotInList
  | x :: l' => if py_eqb x o then Ok 0 else Z.succ <$> index o l'
  end.

(** [l[i]] for a Python integer [i]: negative indices count from the end. *)
Definition list_getitem {A} (l : list A) (i : Z) : outcome A :=
  let n := Z.of_nat (length l) in
  let j := if (i <? 0)%Z then i + n else i in
  if (0 <=? j)%Z && (j <? n)%Z then
    match l !! Z.to_nat j with
    | Some x => Ok x
    | None => Raise IndexError
    end
  else Raise IndexError.

(** [metric.get_id()] *)
Definition get_id (o : PyObj) : outcome string :=
  match o with
  | AMetric m => Ok (class_name m)
  | _ => Raise (AttributeError "get_id")
  end.

End Objects.

(** The collaborators of [report.py]: options, the calculation of a metric,
    the suite's verification and additional features, renderers and
    [pd.concat]. *)
Class Collaborators `{Columns} := {
  Options : Type;
  MetricResult : Type;
  IncludeOptions : Type;
  Json : Type;
  RenderersDefinitions : Type;
  (** [Options.from_any_options(None)] *)
  default_options : Options;
  DEFAULT_RENDERERS : RenderersDefinitions;
  (** [metric.calculate(data)] *)
  metric_calculate : PyObj → InputData → outcome MetricResult;
  verify_options : Options → outcome ();
  additional_features :
    list PyObj → DataFrame → option DataFrame → DataDefinition →
    option DataFrame * option DataFrame;
  pd_concat : list DataFrame → DataFrame
}.

Section Report.
Context `{Collaborators}.

(** A renderer; the result it renders is the one the context holds for the
    metric. *)
Record MetricRenderer := {
  render_json :
    PyObj → option MetricResult → bool → option IncludeOptions → option IncludeOptions → Json;
  render_pandas : PyObj → option MetricResult → DataFrame
}.

Variable find_metric_renderer : PyObj → RenderersDefinitions → outcome MetricRenderer.

Record Context := {
  ctx_metrics : list PyObj;
  metric_results : list MetricResult;
  renderers : RenderersDefinitions
}.

Record Suite := { suite_options : Options; context : Context }.

(** Modelled from the spec: the Context as it is [created on Suite
    construction], with no metric and no result. *)
Definition new_Context : Context :=
  {| ctx_metrics := []; metric_results := []; renderers := DEFAULT_RENDERERS |}.

(** Modelled from the spec: [Suite(options)], which is missing from the
    source files: a suite owns one Context. *)
Definition new_Suite (options : Options) : Suite :=
  {| suite_options := options; context := new_Context |}.

(** Modelled from the spec: [Suite.reset], which is missing from the source
    files: [Reset the Suite/Context (discard any prior results)]. *)
Definition reset (s : Suite) : Suite :=
  {| suite_options := suite_options s; context := new_Context |}.

(** Modelled from the spec: [Suite.verify], which is missing from the source
    files: [verify configuration validity], failing on a conflict of
    options. *)
Definition verify (s : Suite) : outcome () := verify_options (suite_options s).

(** Modelled from the spec: [Suite.add_metric], which is missing from the
    source files: the metric is [registered into the Suite for execution],
    after those registered before it. *)
Definition add_metric (metric : PyObj) (s : Suite) : Suite :=
  {| suite_options := suite_options s;
     context := {| ctx_metrics := ctx_metrics (context s) ++ [metric];
                   metric_results := metric_results (context s);
                   renderers := renderers (context s) |} |}.

(** Modelled from the spec: [Suite.create_additional_features], which is
    missing from the source files: the derived columns that the registered
    metrics require, for the current and the reference table. *)
Definition create_additional_features (s : Suite) (current_data : DataFrame)
    (reference_data : option DataFrame) (data_definition : DataDefinition) :=
  additional_features (ctx_metrics (context s)) current_data reference_data data_definition.

(** Modelled from the spec: [Suite.run_calculate], which is missing from the
    source files: [execute every registered Metric exactly once, storing each
    Result in the Context keyed by the Metric's position]; the first failure
    [aborts the entire run] and no result is stored. *)
Definition run_calculate (s : Suite) (data : InputData) : Suite * outcome () :=
  match mapM (λ metric, metric_calculate metric data) (ctx_metrics (context s)) with
  | Ok results =>
      ({| suite_options := suite_options s;
          context := {| ctx_metrics := ctx_metrics (context s);
                        metric_results := results;
                        renderers := renderers (context s) |} |}, Ok ())
  | Raise e => (s, Raise e)
  end.

(** Modelled from the spec: [metric.get_result()], which is missing from the
    source files: the result stored in the context at the position of the
    metric. *)
Definition get_result (ctx : Context) (metric : PyObj) : option MetricResult :=
  match index metric (ctx_metrics ctx) with
  | Ok i => metric_results ctx !! Z.to_nat i
  | Raise _ => None
  end.

Record Report := {
  metrics : list PyObj;
  options : Options;
  timestamp : datetime;
  _inner_suite : Suite;
  _columns_info : option DatasetColumns;
  _first_level_metrics : list PyObj;
  id : UUID;
  metadata : gmap string string
}.

Definition set_columns_info (v : DatasetColumns) (self : Report) : Report :=
  {| metrics := metrics self; options := options self; timestamp := timestamp self;
     _inner_suite := _inner_suite self; _columns_info := Some v;
     _first_level_metrics := _first_level_metrics self;
     id := id self; metadata := metadata self |}.

Definition set_inner_suite (v : Suite) (self : Report) : Report :=
  {| metrics := metrics self; options := options self; timestamp := timestamp self;
     _inner_suite := v; _columns_info := _columns_info self;
     _first_level_metrics := _first_level_metrics self;
     id := id self; metadata := metadata self |}.

Definition set_first_level_metrics (v : list PyObj) (self : Report) : Report :=
  {| metrics := metrics self; options := options self; timestamp := timestamp self;
     _inner_suite := _inner_suite self; _columns_info := _columns_info self;
     _first_level_metrics := v;
     id := id self; metadata := metadata self |}.

(** [Report.__init__].  [uuid4] and [now] are the values that [uuid.uuid4()]
    and the clock of [Display.__init__] would give. *)
Definition __init__ (uuid4 : UUID) (now : datetime)
    (metrics : list PyObj) (options : option Options) (timestamp : option datetime)
    (id : option UUID) (metadata : option (gmap string string)) : Report :=
  let options := default default_options options in
  {| metrics := metrics;
     options := options;
     timestamp := default now timestamp;
     _inner_suite := new_Suite options;
     _columns_info := None;
     _first_level_metrics := [];
     id := default uuid4 id;
     metadata := default ∅ metadata |}.

(** The two statements that every branch of the loop of [run] ends with:
    [self._first_level_metrics.append(metric)] and
    [self._inner_suite.add_metric(metric)]. *)
Definition append_metric (metric : PyObj) (self : Report) : Report :=
  set_inner_suite (add_metric metric (_inner_suite self))
    (set_first_level_metrics (_first_level_metrics self ++ [metric]) self).

(** [for metric in item.generate(...)], lines 83-90 *)
Fixpoint add_generated (item : string) (generated : list PyObj) (self : Report)
  : Report * outcome () :=
  match generated with
  | [] => (self, Ok ())
  | metric :: generated' =>
      if is_Metric metric then add_generated item generated' (append_metric metric self)
      else (self, Raise (ValueError ("Incorrect metric type in generator " +:+ item)))
  end.

(** [for metric in metrics], lines 102-104 *)
Definition add_all (metrics : list PyObj) (self : Report) : Report :=
  foldl (λ self metric, append_metric metric self) self metrics.

(** The list [metrics] that lines 93-100 build from a preset's items. *)
Definition preset_metrics (columns : DatasetColumns) (items : list PyObj) : list PyObj :=
  mjoin (map (λ metric_item,
                match metric_item with
                | AGenerator _ generate => generate columns
                | _ => [metric_item]
                end) items).

(** The body of the loop over [self.metrics], lines 82-111 *)
Definition add_item (data : InputData) (columns : DatasetColumns) (item : PyObj)
    (self : Report) : Report * outcome () :=
  match item with
  | AGenerator name generate => add_generated name (generate columns) self
  | APreset _ generate_metrics =>
      (add_all (preset_metrics columns (generate_metrics data columns)) self, Ok ())
  | AMetric _ => (append_metric item self, Ok ())
  | AnObject _ =>
      (self, Raise (ValueError
         "Incorrect item instead of a metric or metric preset was passed to Report"))
  end.

Fixpoint add_items (data : InputData) (columns : DatasetColumns) (items : list PyObj)
    (self : Report) : Report * outcome () :=
  match items with
  | [] => (self, Ok ())
  | item :: items' =>
      match add_item data columns item self with
      | (self, Ok _) => add_items data columns items' self
      | (self, Raise e) => (self, Raise e)
      end
  end.

(** [Report.run] *)
Definition run (self : Report) (reference_data current_data : option DataFrame)
    (column_mapping : option ColumnMapping) : Report * outcome () :=
  let column_mapping := default default_column_mapping column_mapping in
  match current_data with
  | None => (self, Raise (ValueError "Current dataset should be present"))
  | Some current_data =>
      let columns := process_columns current_data column_mapping in
      let self := set_columns_info columns self in
      let self := set_inner_suite (reset (_inner_suite self)) self in
      match verify (_inner_suite self) with
      | Raise e => (self, Raise e)
      | Ok _ =>
          let data_definition := create_data_definition reference_data current_data column_mapping in
          let data :=
            {| reference_data := reference_data; current_data := current_data;
               reference_additional_features := None; current_additional_features := None;
               column_mapping := column_mapping; data_definition := data_definition |} in
          match add_items data columns (metrics self) self with
          | (self, Raise e) => (self, Raise e)
          | (self, Ok _) =>
              let data_definition := create_data_definition reference_data current_data column_mapping in
              let '(curr_add, ref_add) :=
                create_additional_features (_inner_suite self) current_data reference_data data_definition in
              let data :=
                {| reference_data := reference_data; current_data := current_data;
                   reference_additional_features := ref_add; current_additional_features := curr_add;
                   column_mapping := column_mapping; data_definition := data_definition |} in
              let '(suite, result) := run_calculate (_inner_suite self) data in
              (set_inner_suite suite self, result)
          end
      end
  end.

(** [Report.as_dict]; the structured view is the list under the key
    ["metrics"], each entry with its ["metric"] and its ["result"]. *)
Definition as_dict (self : Report) (include_render : bool)
    (include exclude : option (gmap string IncludeOptions)) : outcome (list (string * Json)) :=
  let include := default ∅ include in
  let exclude := default ∅ exclude in
  let ctx := context (_inner_suite self) in
  mapM (λ metric,
          renderer ← find_metric_renderer metric (renderers ctx);
          metric_id ← get_id metric;
          Ok (metric_id,
              render_json renderer metric (get_result ctx metric) include_render
                (include !! metric_id) (exclude !! metric_id)))
       (_first_level_metrics self).

(** What [as_pandas] returns: one table, or a dictionary of tables. *)
Inductive PandasView :=
| OneTable (t : DataFrame)
| TablesByGroup (d : gmap string DataFrame).

(** The loop of [as_pandas], lines 157-162; [metrics] is the
    [defaultdict(list)]. *)
Fixpoint group_tables (ctx : Context) (group : option string) (l : list PyObj)
    (metrics : gmap string (list DataFrame)) : outcome (gmap string (list DataFrame)) :=
  match l with
  | [] => Ok metrics
  | metric :: l' =>
      renderer ← find_metric_renderer metric (renderers ctx);
      metric_id ← get_id metric;
      if bool_decide (group ≠ None ∧ group ≠ Some metric_id) then
        group_tables ctx group l' metrics
      else
        group_tables ctx group l'
          (<[metric_id := (default [] (metrics !! metric_id)
                           ++ [render_pandas renderer metric (get_result ctx metric)])%list]> metrics)
  end.

(** [Report.as_pandas] *)
Definition as_pandas (self : Report) (group : option string) : outcome PandasView :=
  metrics ← group_tables (context (_inner_suite self)) group (_first_level_metrics self) ∅;
  let result := pd_concat <$> metrics in
  match group with
  | None =>
      match map_to_list result with
      | [(_, t)] => Ok (OneTable t)
      | _ => Ok (TablesByGroup result)
      end
  | Some group =>
      match result !! group with
      | None => Raise (ValueError ("Metric group " +:+ group +:+ " not found in this report"))
      | Some t => Ok (OneTable t)
      end
  end.

(** Modelled from the spec: [ContextPayload], which is missing from the
    source files: the snapshot of a Context, [all executed Metrics with their
    Results, in registration order]. *)
Record ContextPayload := {
  cp_metrics : list PyObj;
  cp_metric_results : list MetricResult;
  cp_renderers : RenderersDefinitions
}.

(** Modelled from the spec: [ContextPayload.from_context], which is missing
    from the source files: it [snapshots the current Context]. *)
Definition from_context (ctx : Context) : ContextPayload :=
  {| cp_metrics := ctx_metrics ctx;
     cp_metric_results := metric_results ctx;
     cp_renderers := renderers ctx |}.

(** Modelled from the spec: [ContextPayload.to_context], which is missing
    from the source files: it [reconstructs a Context verbatim from the
    snapshot]. *)
Definition to_context (p : ContextPayload) : Context :=
  {| ctx_metrics := cp_metrics p;
     metric_results := cp_metric_results p;
     renderers := cp_renderers p |}.

Record _ReportPayload := {
  payload_id : UUID;
  suite : ContextPayload;
  metrics_ids : list Z;
  payload_timestamp : datetime;
  payload_metadata : gmap string string
}.

(** [Report._get_payload] *)
Definition _get_payload (self : Report) : outcome _ReportPayload :=
  let ctx := context (_inner_suite self) in
  let suite := from_context ctx in
  metrics_ids ← mapM (λ m, index m (cp_metrics suite)) (_first_level_metrics self);
  Ok {| payload_id := id self;
        suite := suite;
        metrics_ids := metrics_ids;
        payload_timestamp := timestamp self;
        payload_metadata := metadata self |}.

(** [_ReportPayload.load]; building a Report needs the two values that
    [__init__] falls back on, although neither is used here. *)
Definition load (uuid4 : UUID) (now : datetime) (self : _ReportPayload) : outcome Report :=
  let ctx := to_context (suite self) in
  metrics ← mapM (λ i, list_getitem (ctx_metrics ctx) i) (metrics_ids self);
  let report :=
    __init__ uuid4 now metrics None (Some (payload_timestamp self)) (Some (payload_id self))
      (Some (payload_metadata self)) in
  let report := set_first_level_metrics metrics report in
  let report :=
    set_inner_suite {| suite_options := suite_options (_inner_suite report); context := ctx |}
      report in
  Ok report.

(** [Report._parse_payload].  The dictionary that the payload serialises to
    is identified with the payload, and [parse_obj_as] with reading it
    back. *)
Definition _parse_payload (uuid4 : UUID) (now : datetime) (payload : _ReportPayload)
  : outcome Report :=
  load uuid4 now payload.

(** *** The specification's words, for comparison with the code *)

(** What one item of the specification list stands for: a Metric for
    itself, a Generator for what it generates, a Preset for its items with
    the nested Generators expanded in place. *)
Definition expansion (data : InputData) (columns : DatasetColumns) (item : PyObj)
  : list PyObj :=
  match item with
  | AMetric _ => [item]
  | AGenerator _ generate => generate columns
  | APreset _ generate_metrics =>
      nested ← generate_metrics data columns;
      match nested with
      | AGenerator _ generate => generate columns
      | _ => [nested]
      end
  | AnObject _ => []
  end.

(** The Input Bundle [that has no extra features yet], against which the
    specification list is expanded. *)
Definition bundle_without_features (reference_data : option DataFrame)
    (current_data : DataFrame) (column_mapping : ColumnMapping) : InputData :=
  {| reference_data := reference_data; current_data := current_data;
     reference_additional_features := None; current_additional_features := None;
     column_mapping := column_mapping;
     data_definition := create_data_definition reference_data current_data column_mapping |}.

(** A valid item: a Metric, a Preset, or a Generator of Metrics. *)
Definition valid_item (columns : DatasetColumns) (item : PyObj) : bool :=
  match item with
  | AnObject _ => false
  | AGenerator _ generate => forallb is_Metric (generate columns)
  | _ => true
  end.

(** [str(o)] *)
Definition py_str (o : PyObj) : string :=
  match o with
  | AMetric m => class_name m
  | APreset name _ | AGenerator name _ | AnObject name => name
  end.

(** An error message names an object when what [str] prints for the object
    occurs in it. *)
Definition message_names (msg : string) (o : PyObj) : bool :=
  bool_decide (is_Some (String.index 0 (py_str o) msg)).

(** A first-level metric that the views can render: a Metric with a
    renderer. *)
Definition renderable (ctx : Context) (o : PyObj) : bool :=
  is_Metric o && is_Ok (find_metric_renderer o (renderers ctx)).

(** The groups of the tabular view: the ids of the first-level metrics. *)
Definition group_ids (l : list PyObj) : list string :=
  o ← l; match get_id o with Ok g => [g] | Raise _ => [] end.

(** The tables of the metrics of group [g], in the order of the metrics. *)
Definition tables_of (ctx : Context) (g : string) (l : list PyObj) : list DataFrame :=
  o ← l;
  match find_metric_renderer o (renderers ctx), get_id o with
  | Ok renderer, Ok g' =>
      if bool_decide (g' = g) then [render_pandas renderer o (get_result ctx o)] else []
  | _, _ => []
  end.

End Report.
End ReportPy.

(** ** Concrete collaborators and data, for the examples *)

Module Examples.
Import Pandas.

(** A column resolver that reads the roles off the mapping. *)
#[export] Instance columns_from_mapping : Columns := {|
  DataDefinition := ();
  default_column_mapping :=
    {| cm_target := Some "target";
       cm_prediction := Some (PredictionColumn "prediction");
       cm_datetime := None |};
  process_columns := λ df cm,
    {| utility_columns :=
         {| date := cm_datetime cm; target := cm_target cm; prediction := cm_prediction cm |};
       feature_names := columns df |};
  create_data_definition := λ _ _ _, ()
|}.

Definition row (l : Z) (vs : list cell) : Row := {| label := l; values := vs |}.

Definition input (ref : option DataFrame) (cur : DataFrame) (cm : ColumnMapping) : InputData :=
  {| reference_data := ref; current_data := cur;
     reference_additional_features := None; current_additional_features := None;
     column_mapping := cm; data_definition := () |}.

(** [target=[1,2,3], prediction=[1.1,2.5,2.9]] *)
Definition three_rows : DataFrame :=
  {| columns := ["target"; "prediction"];
     rows := [row 0 [Finite 1; Finite (11#10)];
              row 1 [Finite 2; Finite (25#10)];
              row 2 [Finite 3; Finite (29#10)]] |}.

(** The same table with a time column that runs against the index. *)
Definition timed_rows : DataFrame :=
  {| columns := ["target"; "prediction"; "ts"];
     rows := [row 0 [Finite 1; Finite (11#10); Finite 30];
              row 1 [Finite 2; Finite (25#10); Finite 20];
              row 2 [Finite 3; Finite (29#10); Finite 10]] |}.

Definition timed_mapping : ColumnMapping :=
  {| cm_target := Some "target";
     cm_prediction := Some (PredictionColumn "prediction");
     cm_datetime := Some "ts" |}.


Definition raw_metric : PredictedVsActual.RegressionPredictedVsActualScatter :=
  {| PredictedVsActual.get_options := {| PredictedVsActual.agg_data := false |} |}.

Definition agg_metric : PredictedVsActual.RegressionPredictedVsActualScatter :=
  {| PredictedVsActual.get_options := {| PredictedVsActual.agg_data := true |} |}.

Import ReportPy.

(** Collaborators of the report: a metric's result is the number of rows of
    the current table and only metrics can be calculated; tables are
    concatenated row after row. *)
#[export] Instance plain_collaborators : Collaborators := {|
  Options := ();
  MetricResult := nat;
  IncludeOptions := ();
  Json := string * option nat;
  RenderersDefinitions := ();
  default_options := ();
  DEFAULT_RENDERERS := ();
  metric_calculate := λ o data,
    match o with
    | AMetric _ => Ok (length (rows (current_data data)))
    | _ => Raise (AttributeError "calculate")
    end;
  verify_options := λ _, Ok ();
  additional_features := λ _ _ _ _, (None, None);
  pd_concat := λ dfs,
    {| columns := default [] (columns <$> head dfs); rows := mjoin (rows <$> dfs) |}
|}.

(** Every metric has a renderer; its table has one row, labelled with the
    result. *)
Definition plain_renderer : MetricRenderer :=
  {| render_json := λ o r _ _ _, (py_str o, r);
     render_pandas := λ o r,
       {| columns := [py_str o];
          rows := [row (Z.of_nat (default 0%nat r)) [Finite 1]] |} |}.

Definition find_plain_renderer (o : PyObj) (_ : ()) : outcome MetricRenderer :=
  if is_Metric o then Ok plain_renderer else Raise (KeyError (py_str o)).

Definition metric (name : string) : PyObj := AMetric {| class_name := name; fields := [] |}.

(** The scenario of the specification: [[MetricA, PresetB, GeneratorC]]. *)
Definition GeneratorE : PyObj := AGenerator "GeneratorE" (λ _, [metric "MetricF"; metric "MetricG"]).
Definition PresetB : PyObj := APreset "PresetB" (λ _ _, [metric "MetricD"; GeneratorE]).
Definition GeneratorC : PyObj := AGenerator "GeneratorC" (λ _, [metric "MetricH"]).

Definition new_report (items : list PyObj) : Report :=
  __init__ 4%N 0 items None None None None.

(** One metric for every column of the current table. *)
Definition column_metric (column : string) : PyObj :=
  AMetric {| class_name := "ColumnSummaryMetric"; fields := [("column_name", column)] |}.

Definition per_column : PyObj :=
  AGenerator "generate_column_metrics" (λ columns, column_metric <$> feature_names columns).

Definition one_column : DataFrame :=
  {| columns := ["target"]; rows := [row 0 [Finite 1]] |}.

(** A generator, and a preset with a nested generator, whose output is not
    a metric. *)
Definition bad_generator : PyObj :=
  AGenerator "BadGenerator" (λ _, [metric "MetricA"; AnObject "42"; metric "MetricB"]).

Definition bad_preset : PyObj :=
  APreset "BadPreset" (λ _ _, [metric "MetricA"; bad_generator]).

End Examples.

(** ** predicted_vs_actual.py: the renderer *)

Module ScatterRenderer.
Import Pandas PredictedVsActual.

(** The plotting helpers that the renderer calls; none of them is among the
    source files.  [go_Bar d] stands for
    [go.Bar(x=list(d.keys()), y=list(d.values()))], [go_Figure] for the data
    and layout of [go.Figure(data=data)] read back from its JSON, and
    [base_widget_info] for the constructor of [BaseWidgetInfo]. *)
Class Plotting := {
  Figure : Type;
  ColorOptions : Type;
  ScatterDict : Type;
  Bar : Type;
  Widget : Type;
  scatter_as_dict : option PredActualScatter → option ScatterDict;
  plot_scatter :
    option ScatterDict → option ScatterDict → string → string → string → string →
    ColorOptions → Figure;
  go_Bar : gmap string Z → Bar;
  go_Figure : list Bar → Figure;
  header_text : string → Widget;
  base_widget_info : string → Z → string → Figure → Widget
}.

Section Renderer.
Context `{Plotting}.

(** The renderer object: its colour options are all the state it reads. *)
Record RegressionPredictedVsActualScatterRenderer := { color_options : ColorOptions }.

(** [render_raw] *)
Definition render_raw (self : RegressionPredictedVsActualScatterRenderer)
    (current : PredActualScatter) (reference : option PredActualScatter) : list Widget :=
  let fig :=
    plot_scatter (scatter_as_dict (Some current)) (scatter_as_dict reference)
      "actual" "predicted" "Actual value" "Predicted value" (color_options self) in
  [header_text "Predicted vs Actual"; base_widget_info "" 2 "big_graph" fig].

(** [render_agg] *)
Definition render_agg (self : RegressionPredictedVsActualScatterRenderer)
    (current : AggPredActualScatter) (reference : option AggPredActualScatter) : list Widget :=
  let data := [go_Bar (data current)] in
  let data :=
    match reference with
    | Some reference => data ++ [go_Bar (PredictedVsActual.data reference)]
    | None => data
    end in
  let fig_agg := go_Figure data in
  [header_text "Predicted vs Actual"; base_widget_info "" 2 "big_graph" fig_agg].

(** [render_html]; [result] is what [obj.get_result()] gives. *)
Definition render_html (self : RegressionPredictedVsActualScatterRenderer)
    (obj : RegressionPredictedVsActualScatter)
    (result : RegressionPredictedVsActualScatterResults) : outcome (list Widget) :=
  if agg_data (get_options obj) then
    current ← current_agg result;
    reference ← reference_agg result;
    Ok (render_agg self current reference)
  else
    current ← current_raw result;
    reference ← reference_raw result;
    Ok (render_raw self current reference).

End Renderer.

End ScatterRenderer.

(** ** report.py: the dashboard *)

Module DashboardPy.
Import Pandas ReportPy.

(** [s.replace("-", "")] *)
Fixpoint remove_dashes (s : string) : string :=
  match s with
  | EmptyString => EmptyString
  | String c s' =>
      if Ascii.eqb c "-"%char then remove_dashes s' else String c (remove_dashes s')
  end.

(** The character [c] occurs in [s]. *)
Fixpoint has_char (c : Ascii.ascii) (s : string) : bool :=
  match s with
  | EmptyString => false
  | String c' s' => Ascii.eqb c c' || has_char c s'
  end.

Section Dashboard.
Context `{Collaborators}.
Variable find_metric_renderer : PyObj → RenderersDefinitions → outcome MetricRenderer.

(** Widgets, the values of graph data and dataclass instances, with the
    calls the method makes on them: [self.options.color_options],
    [renderer.render_html(test)] of a renderer whose colour options were set
    from the report, [info_item.get_additional_graphs()] and
    [dataclasses.asdict]. *)
Variables ColorOptions Widget Value Dataclass : Type.
Variable color_options : Options → ColorOptions.
Variable render_html :
  MetricRenderer → ColorOptions → PyObj → option MetricResult → list Widget.
Variable asdict : Dataclass → Value.

(** What [info] of a [DetailsInfo] can hold: an instance of a dataclass, or
    any other value. *)
Inductive Info :=
| DataclassInfo (d : Dataclass)
| PlainInfo (v : Value).

(** An additional graph: an [AdditionalGraphInfo] with its [params], or any
    other object with an [id], which is then its own info. *)
Inductive Graph :=
| AdditionalGraphInfo (id : string) (params : Info)
| OtherGraph (id : string) (object : Info).

Variable get_additional_graphs : Widget → list Graph.

Record DetailsInfo := { details_title : string; info : Info; details_id : string }.

Record DashboardInfo := { name : string; widgets : list Widget }.

(** Lines 187-191 *)
Definition details_of (additional_graph : Graph) : DetailsInfo :=
  match additional_graph with
  | AdditionalGraphInfo id params =>
      {| details_title := ""; info := params; details_id := id |}
  | OtherGraph id object =>
      {| details_title := ""; info := object; details_id := id |}
  end.

(** The loop over [self._first_level_metrics], lines 179-193 *)
Fixpoint render_tests (ctx : Context) (color : ColorOptions) (tests : list PyObj)
    (metrics_results : list Widget) (additional_graphs : list DetailsInfo)
  : outcome (list Widget * list DetailsInfo) :=
  match tests with
  | [] => Ok (metrics_results, additional_graphs)
  | test :: tests' =>
      renderer ← find_metric_renderer test (renderers ctx);
      let html_info := render_html renderer color test (get_result ctx test) in
      let additional_graphs :=
        additional_graphs
        ++ (info_item ← html_info; details_of <$> get_additional_graphs info_item) in
      render_tests ctx color tests' (metrics_results ++ html_info) additional_graphs
  end.

(** [dataclasses.asdict(item.info) if dataclasses.is_dataclass(item.info)
    else item.info] *)
Definition info_value (i : Info) : Value :=
  match i with
  | DataclassInfo d => asdict d
  | PlainInfo v => v
  end.

(** The dictionary comprehension of lines 198-201: a later item replaces an
    earlier one with the same id. *)
Definition graphs_dict (additional_graphs : list DetailsInfo) : gmap string Value :=
  foldl (λ d item, <[details_id item := info_value (info item)]> d) ∅ additional_graphs.

(** [Report._build_dashboard_info]; [uuid4_str] is [str(uuid.uuid4())]. *)
Definition _build_dashboard_info (self : Report) (uuid4_str : string)
  : outcome (string * DashboardInfo * gmap string Value) :=
  let color_options := color_options (options self) in
  r ← render_tests (context (_inner_suite self)) color_options
         (_first_level_metrics self) [] [];
  Ok ("evidently_dashboard_" +:+ remove_dashes uuid4_str,
      {| name := "Report"; widgets := r.1 |},
      graphs_dict r.2).

(** The widgets of one first-level metric and the graphs of a widget, for
    the statements. *)
Definition widgets_of (self : Report) (test : PyObj) : list Widget :=
  match find_metric_renderer test (renderers (context (_inner_suite self))) with
  | Ok renderer =>
      render_html renderer (color_options (options self)) test
        (get_result (context (_inner_suite self)) test)
  | Raise _ => []
  end.

Definition graph_id (g : Graph) : string :=
  match g with AdditionalGraphInfo id _ | OtherGraph id _ => id end.

Definition graph_value (g : Graph) : Value :=
  match g with AdditionalGraphInfo _ i | OtherGraph _ i => info_value i end.

Definition has_renderer (ctx : Context) (o : PyObj) : bool :=
  is_Ok (find_metric_renderer o (renderers ctx)).

End Dashboard.

End DashboardPy.

(** ** More concrete collaborators, for the examples *)

Module MoreExamples.
Import Pandas ReportPy Examples.

(** Collaborators whose verification of the options fails. *)
Definition failing_verification : Collaborators := {|
  Options := ();
  MetricResult := nat;
  IncludeOptions := ();
  Json := string * option nat;
  RenderersDefinitions := ();
  default_options := ();
  DEFAULT_RENDERERS := ();
  metric_calculate := λ _ _, Ok 0%nat;
  verify_options := λ _, Raise (ValueError "conflicting options");
  additional_features := λ _ _ _ _, (None, None);
  pd_concat := λ dfs, {| columns := []; rows := [] |}
|}.

(** Plotting that keeps what it was given. *)
#[export] Instance plain_plotting : ScatterRenderer.Plotting := {|
  ScatterRenderer.Figure := list (gmap string Z) + option PredictedVsActual.PredActualScatter;
  ScatterRenderer.ColorOptions := ();
  ScatterRenderer.ScatterDict := PredictedVsActual.PredActualScatter;
  ScatterRenderer.Bar := gmap string Z;
  ScatterRenderer.Widget := string + (list (gmap string Z) + option PredictedVsActual.PredActualScatter);
  ScatterRenderer.scatter_as_dict := λ s, s;
  ScatterRenderer.plot_scatter := λ cur _ _ _ _ _ _, inr cur;
  ScatterRenderer.go_Bar := λ d, d;
  ScatterRenderer.go_Figure := λ bars, inl bars;
  ScatterRenderer.header_text := λ label, inl label;
  ScatterRenderer.base_widget_info := λ _ _ _ fig, inr fig
|}.

Definition plain_scatter_renderer : ScatterRenderer.RegressionPredictedVsActualScatterRenderer :=
  {| ScatterRenderer.color_options := () |}.

(** Dashboard widgets: a widget is the name of its metric and has one
    additional graph, whose id is that name. *)
Definition name_widgets (_ : MetricRenderer) (_ : ()) (o : PyObj) (_ : option nat)
  : list string := [py_str o].

Definition one_graph (w : string) : list (DashboardPy.Graph nat string) :=
  [DashboardPy.AdditionalGraphInfo nat string w (DashboardPy.PlainInfo nat string (String.length w))].

Definition two_groups : Report :=
  (run (new_report [metric "MetricA"; metric "MetricB"; metric "MetricA"])
       None (Some three_rows) None).1.

(** A report with a first-level object that no renderer is found for. *)
Definition unrenderable : Report :=
  (add_item (bundle_without_features None three_rows default_column_mapping)
            (process_columns three_rows default_column_mapping)
            bad_preset (new_report [])).1.

(** A table with an infinite prediction, a missing time, and times that run
    against the index. *)
Definition unordered : DataFrame :=
  {| columns := ["target"; "prediction"; "ts"];
     rows := [row 0 [Finite 1; Finite 2; Finite 30];
              row 1 [Finite 3; PosInf; Finite 20];
              row 2 [Finite 5; Finite 6; NaN];
              row 3 [Finite 7; Finite 8; Finite 10]] |}.

End MoreExamples.

(** * Properties *)

(** ** Sorting and row filtering *)

Module PandasFacts.
Import Pandas.

Section Sorting.
Context {A : Type} (leb : A → A → bool).

Lemma insert_by_perm x l : insert_by leb x l ≡ₚ x :: l.
Proof.
  induction l as [|y l IH]; simpl; [done|].
  destruct (leb x y); [done|].
  rewrite IH. apply Permutation_swap.
Qed.

Lemma sort_by_perm l : sort_by leb l ≡ₚ l.
Proof.
  induction l as [|x l IH]; simpl; [done|].
  fold (sort_by leb l). by rewrite insert_by_perm, IH.
Qed.

Lemma insert_by_sorted x l :
  (∀ a b, leb a b = false → leb b a = true) →
  is_sorted leb l = true → is_sorted leb (insert_by leb x l) = true.
Proof.
  intros Htotal. induction l as [|y l IH]; [done|].
  intros Hs. cbn [insert_by]. destruct (leb x y) eqn:Hxy.
  - cbn [is_sorted]. by rewrite Hxy.
  - destruct l as [|z l].
    + cbn. by rewrite (Htotal _ _ Hxy).
    + cbn [is_sorted] in Hs. apply andb_true_iff in Hs as [Hyz Hs].
      specialize (IH Hs). cbn [insert_by] in IH |- *.
      destruct (leb x z); cbn [is_sorted] in IH |- *.
      * by rewrite (Htotal _ _ Hxy), IH.
      * by rewrite Hyz, IH.
Qed.

Lemma sort_by_sorted l :
  (∀ a b, leb a b = false → leb b a = true) → is_sorted leb (sort_by leb l) = true.
Proof.
  intros Htotal. induction l as [|x l IH]; [done|].
  by apply insert_by_sorted.
Qed.

(** Rows that are in order already are left where they are. *)
Lemma sort_by_id l : is_sorted leb l = true → sort_by leb l = l.
Proof.
  induction l as [|x l IH]; [done|].
  intros Hs. cbn [sort_by foldr]. fold (sort_by leb l).
  destruct l as [|y l]; [done|].
  cbn [is_sorted] in Hs. apply andb_true_iff in Hs as [Hxy Hs].
  rewrite (IH Hs). cbn. by rewrite Hxy.
Qed.

End Sorting.

Lemma sort_by_map {A B} (f : A → B) (leb : A → A → bool) (leb' : B → B → bool) l :
  (∀ a b, leb' (f a) (f b) = leb a b) →
  sort_by leb' (map f l) = map f (sort_by leb l).
Proof.
  intros Hf. induction l as [|x l IH]; simpl; [done|].
  fold (sort_by leb l) (sort_by leb' (map f l)). rewrite IH.
  generalize (sort_by leb l) as s. intros s.
  induction s as [|y s IHs]; simpl; [done|].
  rewrite Hf. destruct (leb x y); simpl; [done|]. by rewrite IHs.
Qed.

Lemma label_leb_total a b : label_leb a b = false → label_leb b a = true.
Proof. unfold label_leb. intros Hab. apply Z.leb_le. apply Z.leb_gt in Hab. lia. Qed.

Lemma cell_at_map f i r :
  f NaN = NaN →
  cell_at i {| label := label r; values := map f (values r) |} = f (cell_at i r).
Proof.
  intros Hf. unfold cell_at. simpl. rewrite list_lookup_fmap.
  by destruct (values r !! i).
Qed.

Lemma positions_two t p cols it ip :
  column_pos t cols = Some it → column_pos p cols = Some ip →
  positions [t; p] cols = Ok [it; ip].
Proof. intros Ht Hp. simpl. by rewrite Ht, Hp. Qed.

End PandasFacts.

(** ** The row filter applied to a frame that needs no filtering *)

Module RowFilterFacts.
Import Pandas PandasFacts PredictedVsActual.







Import Examples.


(** The same with a time column. *)
Example make_df_for_plot_timed :
  _make_df_for_plot
    {| columns := ["target"; "prediction"; "ts"];
       rows := [row 7 [Finite 1; Finite 2; Finite 10];
                row 3 [Finite 3; Finite 4; Finite 20]] |}
    "target" "prediction" (Some "ts")
  = Ok {| columns := ["target"; "prediction"; "ts"];
          rows := [row 7 [Finite 1; Finite 2; Finite 10];
                   row 3 [Finite 3; Finite 4; Finite 20]] |}.
Proof. reflexivity. Qed.


Lemma cell_leb_total a b : cell_leb a b = false → cell_leb b a = true.
Proof.
  destruct a as [x| | |], b as [y| | |]; cbn; try done.
  intros Hxy. apply Qle_bool_iff. apply Qlt_le_weak, Qnot_le_lt.
  intros Hle. apply Qle_bool_iff in Hle. congruence.
Qed.

Lemma clean_no_inf r : forallb (λ c, negb (is_inf c)) (values (clean r)) = true.
Proof.
  unfold clean. cbn [values]. apply forallb_forall.
  intros c [c0 [<- _]]%in_map_iff. unfold inf_to_nan. by destruct c0.
Qed.

Lemma positions_lookup subset cols ps c :
  positions subset cols = Ok ps → c ∈ subset →
  ∃ i, column_pos c cols = Some i ∧ i ∈ ps.
Proof.
  revert ps. induction subset as [|c0 subset IH]; intros ps Hpos Hc; [inversion Hc|].
  cbn [positions] in Hpos. destruct (column_pos c0 cols) as [i0|] eqn:Hc0; [|done].
  destruct (positions subset cols) as [ps0|]; [|done]. injection Hpos as <-.
  apply elem_of_cons in Hc as [->|Hc].
  - exists i0. split; [done | left].
  - destruct (IH ps0 eq_refl Hc) as (i & Hi & Hin). exists i. split; [done | by right].
Qed.

(** What [_make_df_for_plot] returns: the cleaned rows that are complete in
    the columns it was given, in the required order. *)
Lemma make_df_for_plot_shape df t p dt df' :
  _make_df_for_plot df t p dt = Ok df' →
  ∃ ps, positions (t :: p :: option_list dt) (columns df) = Ok ps
        ∧ columns df' = columns df
        ∧ rows df' ≡ₚ List.filter (complete_at ps) (map clean (rows df))
        ∧ ordered df' dt = true.
Proof.
  unfold _make_df_for_plot, dropna. cbn [replace_inf columns rows].
  destruct dt as [d|]; cbn [option_list app].
  - destruct (positions [t; p; d] (columns df)) as [ps|] eqn:Hps; [|done].
    cbn [mbind outcome_bind]. unfold sort_values. cbn [columns rows].
    destruct (column_pos d (columns df)) as [i|] eqn:Hd; [|done].
    intros [= <-]. exists ps. cbn [columns rows ordered]. rewrite Hd.
    split; [done|]. split; [done|]. split; [apply sort_by_perm|].
    apply sort_by_sorted. intros a b. apply cell_leb_total.
  - destruct (positions [t; p] (columns df)) as [ps|] eqn:Hps; [|done].
    cbn [mbind outcome_bind]. intros [= <-]. exists ps.
    cbn [sort_index columns rows ordered].
    split; [done|]. split; [done|]. split; [apply sort_by_perm|].
    apply sort_by_sorted, label_leb_total.
Qed.


End RowFilterFacts.

(** ** The scatter metric *)

Module PredictedVsActualFacts.
Import Pandas PandasFacts PredictedVsActual.

Lemma filter_map_comm {A B} (f : A → B) (P : B → bool) (l : list A) :
  List.filter P (map f l) = map f (List.filter (λ a, P (f a)) l).
Proof.
  induction l as [|a l IH]; simpl; [done|].
  rewrite IH. by destruct (P (f a)).
Qed.

Lemma cell_at_clean i r : cell_at i (clean r) = inf_to_nan (cell_at i r).
Proof. by apply cell_at_map. Qed.

Lemma complete_clean it ip r :
  complete_at [it; ip] (clean r) = is_finite (cell_at it r) && is_finite (cell_at ip r).
Proof.
  unfold complete_at. simpl. rewrite !cell_at_clean.
  by destruct (cell_at it r), (cell_at ip r).
Qed.

Lemma has_column_pos df name :
  has_column df name = true → column_pos name (columns df) = Some (pos df name).
Proof.
  unfold has_column, pos. intros Hc. apply bool_decide_eq_true in Hc as [i Hi].
  by rewrite Hi.
Qed.

(** Without a time column, [_make_df_for_plot] keeps the rows whose target
    and prediction are finite, in the order of their index labels, with the
    infinite cells of the other columns blanked. *)
Lemma make_df_for_plot_by_index df t p :
  has_column df t = true → has_column df p = true →
  _make_df_for_plot df t p None
  = Ok {| columns := columns df;
          rows := map clean (sort_by label_leb (kept_rows df t p)) |}.
Proof.
  intros Ht%has_column_pos Hp%has_column_pos.
  unfold _make_df_for_plot, dropna. cbn [replace_inf columns rows].
  rewrite (positions_two _ _ _ _ _ Ht Hp). cbn [mbind outcome_bind columns rows].
  rewrite filter_map_comm. unfold sort_index. cbn [columns rows].
  rewrite (sort_by_map clean label_leb label_leb) by done.
  do 4 f_equal. unfold kept_rows. apply filter_ext. intros r. apply complete_clean.
Qed.

Lemma kept_rows_finite df t p r :
  r ∈ sort_by label_leb (kept_rows df t p) →
  is_finite (cell_at (pos df t) r) = true ∧ is_finite (cell_at (pos df p) r) = true.
Proof.
  rewrite sort_by_perm. unfold kept_rows. rewrite list_elem_of_In, filter_In.
  intros [_ Hr]. by apply andb_true_iff in Hr.
Qed.

Lemma series_of_clean i (rs : list Row) :
  (∀ r, r ∈ rs → is_finite (cell_at i r) = true) →
  series_of i (map clean rs) = series_of i rs.
Proof.
  intros Hfin. unfold series_of. rewrite map_map. apply map_ext_in.
  intros r Hr%list_elem_of_In. cbn [clean label]. f_equal.
  fold (clean r). rewrite cell_at_clean. specialize (Hfin r Hr).
  by destruct (cell_at i r).
Qed.

Section Calculate.
Context `{Columns}.

Lemma scatter_by_index df t p :
  has_column df t = true → has_column df p = true →
  (df' ← _make_df_for_plot df t p None; scatter_of df' t p)
  = Ok {| predicted := series_of (pos df p) (spec_raw_rows df t p None);
          actual := series_of (pos df t) (spec_raw_rows df t p None) |}.
Proof.
  intros Ht Hp. rewrite make_df_for_plot_by_index by done.
  cbn [mbind outcome_bind]. unfold scatter_of, getitem. cbn [columns rows].
  rewrite (has_column_pos _ _ Ht), (has_column_pos _ _ Hp). cbn [mbind outcome_bind].
  unfold spec_raw_rows.
  rewrite !series_of_clean; [done| |]; intros r Hr; by apply kept_rows_finite in Hr as [??].
Qed.

Lemma is_sorted_inv {A} (leb : A → A → bool) x l :
  (∀ a b c, leb a b = true → leb b c = true → leb a c = true) →
  is_sorted leb (x :: l) = true →
  is_sorted leb l = true ∧ ∀ y, y ∈ l → leb x y = true.
Proof.
  intros Htrans. revert x. induction l as [|y l IH]; intros x Hs.
  - split; [done|]. intros y Hy. inversion Hy.
  - cbn [is_sorted] in Hs. apply andb_true_iff in Hs as [Hxy Hs].
    split; [done|]. intros z Hz. apply elem_of_cons in Hz as [->|Hz]; [done|].
    destruct (IH y Hs) as [_ Hy]. eauto.
Qed.

Lemma is_sorted_cons {A} (leb : A → A → bool) x l :
  is_sorted leb l = true → (∀ y, y ∈ l → leb x y = true) →
  is_sorted leb (x :: l) = true.
Proof.
  intros Hs Hx. destruct l as [|y l]; [done|].
  cbn [is_sorted]. rewrite (Hx y) by left. done.
Qed.

Lemma is_sorted_filter {A} (leb : A → A → bool) (P : A → bool) l :
  (∀ a b c, leb a b = true → leb b c = true → leb a c = true) →
  is_sorted leb l = true → is_sorted leb (List.filter P l) = true.
Proof.
  intros Htrans. induction l as [|x l IH]; [done|].
  intros Hs. destruct (is_sorted_inv leb x l Htrans Hs) as [Hl Hx].
  simpl. destruct (P x); [|by apply IH].
  apply is_sorted_cons; [by apply IH|].
  intros y Hy%list_elem_of_In. apply filter_In in Hy as [Hy _].
  apply Hx. by apply list_elem_of_In.
Qed.

Lemma label_leb_trans a b c :
  label_leb a b = true → label_leb b c = true → label_leb a c = true.
Proof. unfold label_leb. rewrite !Z.leb_le. lia. Qed.

(** C5, as amended: on the raw path ([agg_data] false) the computation keeps
    the rows of the current table (and of the reference table when there is
    one) whose target and prediction are finite, orders them by their index
    label whether or not a time column is configured, and packages them as
    the actual and predicted series; the rows come out sorted by label, they
    are exactly the kept rows, in their original relative order when the
    index was ascending already, and there is no reference result when no
    reference data was given.  The row filter itself does order by a time
    column when it is handed one; [calculate] never hands it one. *)
Theorem calculate_raw_path extra self data t p :
  agg_data (get_options self) = false →
  target (utility_columns (process_columns (current_data data) (column_mapping data)))
    = Some t →
  prediction (utility_columns (process_columns (current_data data) (column_mapping data)))
    = Some (PredictionColumn p) →
  has_column (current_data data) t = true →
  has_column (current_data data) p = true →
  (∀ ref, reference_data data = Some ref →
          has_column ref t = true ∧ has_column ref p = true) →
  calculate extra self data = Ok (spec_raw_result data t p None)
  ∧ (∀ df, is_sorted label_leb (spec_raw_rows df t p None) = true
           ∧ spec_raw_rows df t p None ≡ₚ kept_rows df t p
           ∧ (is_sorted label_leb (rows df) = true →
              spec_raw_rows df t p None = kept_rows df t p))
  ∧ (reference_data data = None → reference (spec_raw_result data t p None) = None)
  ∧ (∀ df d df', _make_df_for_plot df t p (Some d) = Ok df' → ordered df' (Some d) = true).
Proof.
  intros Hagg Ht Hp Hct Hcp Href. split; [|split; [|split]].
  - unfold calculate. rewrite Ht, Hp, Hagg. cbn [negb].
    pose proof (scatter_by_index (current_data data) t p Hct Hcp) as Hcur.
    destruct (_make_df_for_plot (current_data data) t p None) as [cur|e];
      cbn [mbind outcome_bind] in Hcur |- *; [|done].
    rewrite Hcur. cbn [mbind outcome_bind].
    unfold spec_raw_result, spec_raw_scatter.
    destruct (reference_data data) as [ref|] eqn:Eref.
    + destruct (Href ref eq_refl) as [Hrt Hrp].
      pose proof (scatter_by_index ref t p Hrt Hrp) as Hr.
      destruct (_make_df_for_plot ref t p None) as [ref'|e];
        cbn [mbind outcome_bind] in Hr |- *; [|done].
      rewrite Hr. by destruct extra.
    + by destruct extra.
  - intros df. unfold spec_raw_rows. split; [|split].
    + apply sort_by_sorted, label_leb_total.
    + apply sort_by_perm.
    + intros Hs. apply sort_by_id. unfold kept_rows.
      apply is_sorted_filter; [apply label_leb_trans | done].
  - intros Eref. unfold spec_raw_result. by rewrite Eref.
  - intros df d df' Hdf.
    by destruct (RowFilterFacts.make_df_for_plot_shape _ _ _ _ _ Hdf) as (_ & _ & _ & _ & ?).
Qed.

(** Whatever the options, a result that is returned stores its current side
    in exactly one representation, the one that [agg_data] selects; reading
    the other one fails. *)
Lemma calculate_one_representation extra self data r :
  calculate extra self data = Ok r →
  if agg_data (get_options self)
  then is_Ok (current_agg r) = true ∧ is_Ok (current_raw r) = false
  else is_Ok (current_raw r) = true ∧ is_Ok (current_agg r) = false.
Proof.
  unfold calculate.
  destruct (utility_columns (process_columns (current_data data) (column_mapping data)))
    as [d [t|] [[p|ps]|]]; cbn [target prediction]; try done.
  destruct (agg_data (get_options self)); cbn [negb].
  - destruct extra, (reference_data data); cbn; intros [= <-] || intros [=]; done.
  - destruct (_make_df_for_plot (current_data data) t p None) as [cur|]; [|done].
    cbn [mbind outcome_bind].
    destruct (scatter_of cur t p) as [sc|]; [|done]. cbn [mbind outcome_bind].
    destruct (reference_data data) as [ref|].
    + destruct (_make_df_for_plot ref t p None) as [ref'|]; [|done].
      cbn [mbind outcome_bind fmap outcome_fmap].
      destruct (scatter_of ref' t p); [|done].
      destruct extra; cbn; by intros [= <-].
    + destruct extra; cbn; by intros [= <-].
Qed.

(** On the aggregated path no returned result has a reference side:
    [reference_agg] is handed to the constructor under a keyword that names
    no field. *)
Lemma calculate_agg_reference extra self data r :
  agg_data (get_options self) = true →
  calculate extra self data = Ok r → reference r = None.
Proof.
  intros Hagg. unfold calculate.
  destruct (utility_columns (process_columns (current_data data) (column_mapping data)))
    as [d [t|] [[p|ps]|]]; cbn [target prediction]; try done.
  rewrite Hagg. cbn [negb].
  destruct extra, (reference_data data); cbn; intros [= <-] || intros [=]; done.
Qed.

End Calculate.

Import Examples.

(** The scenario of the specification: three clean rows, no reference. *)
Example calculate_three_rows :
  calculate ExtraIgnore raw_metric (input None three_rows default_column_mapping)
  = Ok {| current := RawScatter
            {| predicted := [(0, Finite (11#10)); (1, Finite (25#10)); (2, Finite (29#10))];
               actual := [(0, Finite 1); (1, Finite 2); (2, Finite 3)] |};
          reference := None |}.
Proof. reflexivity. Qed.

(** A row whose target is infinite is dropped, the others stay in order. *)
Example calculate_drops_inf :
  calculate ExtraIgnore raw_metric
    (input None
       {| columns := ["target"; "prediction"];
          rows := [row 0 [Finite 1; Finite (11#10)];
                   row 1 [PosInf; Finite (25#10)];
                   row 2 [Finite 3; Finite (29#10)]] |}
       default_column_mapping)
  = Ok {| current := RawScatter
            {| predicted := [(0, Finite (11#10)); (2, Finite (29#10))];
               actual := [(0, Finite 1); (2, Finite 3)] |};
          reference := None |}.
Proof. reflexivity. Qed.

Lemma calculate_raw_path_witness :
  calculate ExtraIgnore raw_metric (input None three_rows default_column_mapping)
  = Ok (spec_raw_result (input None three_rows default_column_mapping)
          "target" "prediction" None).
Proof.
  refine (proj1 (calculate_raw_path ExtraIgnore raw_metric
                   (input None three_rows default_column_mapping) "target" "prediction"
                   _ _ _ _ _ _)); try reflexivity.
  intros ref Href. discriminate Href.
Defined.

(** C5 as the specification states it fails: with a time column configured
    the rows still come out in the order of the index, not of the time. *)
Lemma calculate_ignores_time_column :
  ¬ (∀ extra self data t p,
       agg_data (get_options self) = false →
       target (utility_columns (process_columns (current_data data) (column_mapping data)))
         = Some t →
       prediction (utility_columns (process_columns (current_data data) (column_mapping data)))
         = Some (PredictionColumn p) →
       has_column (current_data data) t = true →
       has_column (current_data data) p = true →
       reference_data data = None →
       calculate extra self data
       = Ok (spec_raw_result data t p
               (date (utility_columns
                        (process_columns (current_data data) (column_mapping data)))))).
Proof.
  intros Hclaim.
  specialize (Hclaim ExtraIgnore raw_metric (input None timed_rows timed_mapping)
                "target" "prediction" eq_refl eq_refl eq_refl eq_refl eq_refl eq_refl).
  vm_compute in Hclaim. discriminate Hclaim.
Qed.

(** C3: with [agg_data] set and reference data present, the result that
    [calculate] returns has no reference side at all -- under pydantic's
    default treatment of unknown keywords and when they are allowed -- and
    when they are forbidden the constructor raises; in no case does the
    reference side carry the aggregated representation of the current
    side. *)
Theorem calculate_agg_loses_reference :
  let data := input (Some three_rows) three_rows default_column_mapping in
  calculate ExtraIgnore agg_metric data
  = Ok {| current := AggScatter {| data := {[ "a" := 1; "b" := 2 ]} |}; reference := None |}
  ∧ calculate ExtraAllow agg_metric data
    = Ok {| current := AggScatter {| data := {[ "a" := 1; "b" := 2 ]} |}; reference := None |}
  ∧ calculate ExtraForbid agg_metric data = Raise (ValidationError "reference_agg").
Proof. repeat split; reflexivity. Qed.

End PredictedVsActualFacts.

(** ** The report *)

Module ReportFacts.
Import Pandas ReportPy.

Section Expansion.
Context `{Collaborators}.

Local Abbreviation registered self := (ctx_metrics (context (_inner_suite self))).

Lemma join_map_bind {A B} (f : A → list B) (l : list A) : mjoin (map f l) = l ≫= f.
Proof.
  induction l as [|a l IH]; [done|].
  cbn [map mjoin list_join mbind list_bind]. f_equal. exact IH.
Qed.

Lemma add_all_app ms1 ms2 self :
  add_all (ms1 ++ ms2) self = add_all ms2 (add_all ms1 self).
Proof. apply foldl_app. Qed.

Lemma add_all_first_level ms self :
  _first_level_metrics (add_all ms self) = _first_level_metrics self ++ ms.
Proof.
  revert self. induction ms as [|m ms IH]; intros self; cbn [add_all foldl].
  - by rewrite app_nil_r.
  - fold (add_all ms (append_metric m self)). rewrite IH. cbn.
    by rewrite <- app_assoc.
Qed.

Lemma add_all_registered ms self :
  registered (add_all ms self) = registered self ++ ms.
Proof.
  revert self. induction ms as [|m ms IH]; intros self; cbn [add_all foldl].
  - by rewrite app_nil_r.
  - fold (add_all ms (append_metric m self)). rewrite IH. cbn.
    by rewrite <- app_assoc.
Qed.

(** A generator of metrics adds them all. *)
Lemma add_generated_metrics name generated self :
  forallb is_Metric generated = true →
  add_generated name generated self = (add_all generated self, Ok ()).
Proof.
  revert self. induction generated as [|m ms IH]; intros self; [done|].
  cbn [forallb add_generated]. intros [Hm Hms]%andb_true_iff. rewrite Hm.
  by rewrite IH.
Qed.

(** A generator stops at the first object that is not a metric, after
    adding the metrics before it. *)
Lemma add_generated_stops name pre x post self :
  forallb is_Metric pre = true → is_Metric x = false →
  add_generated name (pre ++ x :: post) self
  = (add_all pre self, Raise (ValueError ("Incorrect metric type in generator " +:+ name))).
Proof.
  revert self. induction pre as [|m ms IH]; intros self Hpre Hx.
  - cbn. by rewrite Hx.
  - cbn [forallb] in Hpre. apply andb_true_iff in Hpre as [Hm Hms].
    cbn [app add_generated]. rewrite Hm. by rewrite IH.
Qed.

Lemma preset_metrics_expansion columns name generate_metrics data :
  preset_metrics columns (generate_metrics data columns)
  = expansion data columns (APreset name generate_metrics).
Proof.
  cbn [expansion]. unfold preset_metrics. apply join_map_bind.
Qed.

Lemma add_item_valid data columns item self :
  valid_item columns item = true →
  add_item data columns item self = (add_all (expansion data columns item) self, Ok ()).
Proof.
  destruct item as [m|name gm|name g|name]; cbn [valid_item add_item]; intros Hv.
  - done.
  - by rewrite (preset_metrics_expansion columns name).
  - by apply add_generated_metrics.
  - done.
Qed.

Lemma add_items_valid data columns items self :
  forallb (valid_item columns) items = true →
  add_items data columns items self
  = (add_all (items ≫= expansion data columns) self, Ok ()).
Proof.
  revert self. induction items as [|item items IH]; intros self; [done|].
  cbn [forallb add_items]. intros [Hitem Hitems]%andb_true_iff.
  rewrite (add_item_valid _ _ _ _ Hitem), (IH _ Hitems).
  cbn [mbind list_bind]. by rewrite add_all_app.
Qed.

Lemma add_items_invalid data columns pre name post self :
  forallb (valid_item columns) pre = true →
  add_items data columns (pre ++ AnObject name :: post) self
  = (add_all (pre ≫= expansion data columns) self,
     Raise (ValueError
       "Incorrect item instead of a metric or metric preset was passed to Report")).
Proof.
  revert self. induction pre as [|item items IH]; intros self; [done|].
  cbn [forallb app add_items]. intros [Hitem Hitems]%andb_true_iff.
  rewrite (add_item_valid _ _ _ _ Hitem), (IH _ Hitems).
  cbn [mbind list_bind]. by rewrite add_all_app.
Qed.

Lemma run_calculate_registered s data :
  ctx_metrics (context (run_calculate s data).1) = ctx_metrics (context s).
Proof. unfold run_calculate. by destruct (mapM _ _). Qed.

(** What [run] leaves in the report when the items before the first
    invalid one, or all of them, are valid: the first-level metrics it had,
    followed by the expansion of those items, and a suite that holds that
    expansion and nothing else. *)
Lemma run_appends self ref cur cm items rest :
  let cm' := default default_column_mapping cm in
  let columns := process_columns cur cm' in
  verify_options (suite_options (_inner_suite self)) = Ok () →
  metrics self = items ++ rest →
  forallb (valid_item columns) items = true →
  rest = [] ∨ (∃ name rest', rest = AnObject name :: rest') →
  let E := items ≫= expansion (bundle_without_features ref cur cm') columns in
  _first_level_metrics (run self ref (Some cur) cm).1 = _first_level_metrics self ++ E
  ∧ registered (run self ref (Some cur) cm).1 = E
  ∧ ((∃ name rest', rest = AnObject name :: rest') →
     (run self ref (Some cur) cm).2
     = Raise (ValueError
         "Incorrect item instead of a metric or metric preset was passed to Report")).
Proof.
  intros cm' columns Hverify Hitems Hvalid Hrest E.
  unfold run. fold cm' columns. cbn [verify reset set_inner_suite _inner_suite suite_options
    set_columns_info metrics].
  change (verify (reset (_inner_suite self)))
    with (verify_options (suite_options (_inner_suite self))).
  rewrite Hverify, Hitems.
  fold (bundle_without_features ref cur cm').
  destruct Hrest as [->|(name & rest' & ->)].
  - rewrite app_nil_r, (add_items_valid _ _ _ _ Hvalid). fold E.
    destruct (create_additional_features _ _ _ _) as [curr_add ref_add].
    match goal with |- context [run_calculate ?s ?d] =>
      pose proof (run_calculate_registered s d) as Hreg;
      destruct (run_calculate s d) as [suite result] end.
    cbn [fst snd set_inner_suite _first_level_metrics _inner_suite] in Hreg |- *.
    rewrite Hreg, add_all_first_level, add_all_registered.
    split; [done|]. split; [done|]. intros (? & ? & [=]).
  - rewrite (add_items_invalid _ _ _ _ _ _ Hvalid). fold E. cbn [fst snd].
    rewrite add_all_first_level, add_all_registered. done.
Qed.

(** C2: a freshly built report, run on a valid specification list (with
    the current table present and the options verified), holds as first-level
    metrics, and has registered in its suite, exactly the expansions of the
    items of the list, spliced in the order of the list: a Metric stands for
    itself, a Generator for the Metrics it generates, a Preset for its items
    with nested Generators expanded in place. *)
Theorem run_expansion_order uuid4 now items options timestamp id metadata ref cur cm :
  let self := __init__ uuid4 now items options timestamp id metadata in
  let cm' := default default_column_mapping cm in
  let columns := process_columns cur cm' in
  verify_options (default default_options options) = Ok () →
  forallb (valid_item columns) items = true →
  _first_level_metrics (run self ref (Some cur) cm).1
  = items ≫= expansion (bundle_without_features ref cur cm') columns
  ∧ registered (run self ref (Some cur) cm).1
    = items ≫= expansion (bundle_without_features ref cur cm') columns.
Proof.
  intros self cm' columns Hverify Hvalid.
  destruct (run_appends self ref cur cm items [] Hverify) as (Hflm & Hreg & _).
  - cbn. by rewrite app_nil_r.
  - done.
  - by left.
  - split; [|done]. by rewrite Hflm.
Qed.

(** C6: without a current table [run] raises the error of the missing
    current data and returns the report as it was: columns, suite, context
    and first-level metrics are those of before the call. *)
Theorem run_without_current_data self ref cm :
  run self ref None cm = (self, Raise (ValueError "Current dataset should be present")).
Proof. reflexivity. Qed.

(** C7, as amended: when the specification list holds an object that is
    not a Metric, a Preset or a Generator, and the items before it are valid
    (the current table present, the options verified), [run] raises a
    ValueError whose message is the same fixed sentence for every such
    object. *)
Theorem run_invalid_item self ref cur cm pre name post :
  verify_options (suite_options (_inner_suite self)) = Ok () →
  metrics self = pre ++ AnObject name :: post →
  forallb (valid_item (process_columns cur (default default_column_mapping cm))) pre = true →
  (run self ref (Some cur) cm).2
  = Raise (ValueError
      "Incorrect item instead of a metric or metric preset was passed to Report").
Proof.
  intros Hverify Hitems Hvalid.
  destruct (run_appends self ref cur cm pre (AnObject name :: post) Hverify Hitems Hvalid)
    as (_ & _ & Herr); eauto.
Qed.


End Expansion.

Section Payload.
Context `{Collaborators}.
Variable find_metric_renderer : PyObj → RenderersDefinitions → outcome MetricRenderer.

Lemma py_eqb_metric o m : py_eqb o (AMetric m) = true → o = AMetric m.
Proof. destruct o; cbn; try done. by intros ->%bool_decide_eq_true. Qed.

Lemma index_metric m l :
  AMetric m ∈ l →
  ∃ i, index (AMetric m) l = Ok (Z.of_nat i) ∧ l !! i = Some (AMetric m).
Proof.
  induction l as [|x l IH]; intros Hin; [inversion Hin|].
  cbn [index]. destruct (py_eqb x (AMetric m)) eqn:Heq.
  - apply py_eqb_metric in Heq as ->. by exists 0%nat.
  - apply elem_of_cons in Hin as [<-|Hin].
    + cbn in Heq. by rewrite bool_decide_eq_false in Heq.
    + destruct (IH Hin) as (i & -> & Hi). exists (S i). split; [|done].
      cbn. f_equal. lia.
Qed.

Lemma list_getitem_lookup {A} (l : list A) i x :
  l !! i = Some x → list_getitem l (Z.of_nat i) = Ok x.
Proof.
  intros Hi. pose proof (lookup_lt_Some _ _ _ Hi) as Hlt. unfold list_getitem.
  destruct (Z.ltb_spec (Z.of_nat i) 0) as [?|_]; [lia|].
  destruct (Z.leb_spec 0 (Z.of_nat i)) as [_|?]; [|lia].
  destruct (Z.ltb_spec (Z.of_nat i) (Z.of_nat (length l))) as [_|?]; [|lia].
  cbn [andb]. by rewrite Nat2Z.id, Hi.
Qed.

(** Looking the first-level metrics up in the list of registered metrics
    and indexing that list with the positions found gives them back. *)
Lemma index_getitem (first_level registered : list PyObj) :
  (∀ o, o ∈ first_level → is_Metric o = true ∧ o ∈ registered) →
  ∃ ids, mapM (λ m, index m registered) first_level = Ok ids
         ∧ mapM (λ i, list_getitem registered i) ids = Ok first_level.
Proof.
  induction first_level as [|o os IH]; intros Hreg; [by exists []|].
  destruct (Hreg o) as [Hm Hin]; [left|].
  destruct o as [m| | |]; try done.
  destruct (index_metric m registered Hin) as (i & Hi & Hlook).
  destruct IH as (ids & Hids & Hback); [intros o' Ho'; apply Hreg; by right|].
  exists (Z.of_nat i :: ids). cbn [mapM]. rewrite Hi, Hids. split; [done|].
  rewrite (list_getitem_lookup _ _ _ Hlook). cbn [mbind outcome_bind].
  by rewrite Hback.
Qed.

(** The round trip of a report whose first-level metrics are metrics that
    its suite has registered: the payload is built, it loads, and the loaded
    report has the id, the timestamp, the metadata, the first-level metrics,
    the context and the structured view of the original. *)
Lemma payload_round_trip uuid4 now self :
  (∀ o, o ∈ _first_level_metrics self →
        is_Metric o = true ∧ o ∈ ctx_metrics (context (_inner_suite self))) →
  ∃ payload report,
    _get_payload self = Ok payload
    ∧ _parse_payload uuid4 now payload = Ok report
    ∧ id report = id self
    ∧ timestamp report = timestamp self
    ∧ metadata report = metadata self
    ∧ _first_level_metrics report = _first_level_metrics self
    ∧ context (_inner_suite report) = context (_inner_suite self)
    ∧ ∀ include_render include exclude,
        as_dict find_metric_renderer report include_render include exclude
        = as_dict find_metric_renderer self include_render include exclude.
Proof.
  intros Hreg. destruct (index_getitem _ _ Hreg) as (ids & Hids & Hback).
  assert (to_context (from_context (context (_inner_suite self)))
          = context (_inner_suite self)) as Hctx by by destruct (context (_inner_suite self)).
  unfold _get_payload, _parse_payload, load. cbn [from_context cp_metrics].
  rewrite Hids. cbn [mbind outcome_bind]. do 2 eexists. split; [done|].
  cbn [suite metrics_ids payload_id payload_timestamp payload_metadata].
  rewrite Hctx, Hback. cbn [mbind outcome_bind]. split; [done|].
  repeat split. 
Qed.

End Payload.

Section FirstRun.
Context `{Collaborators}.
Variable find_metric_renderer : PyObj → RenderersDefinitions → outcome MetricRenderer.

(** After the first run of a freshly built report on a valid list whose
    expansion consists of metrics, the round trip goes through. *)
Corollary payload_round_trip_first_run uuid4 now items options timestamp id metadata
    ref cur cm uuid4' now' :
  let self := __init__ uuid4 now items options timestamp id metadata in
  let cm' := default default_column_mapping cm in
  let columns := process_columns cur cm' in
  verify_options (default default_options options) = Ok () →
  forallb (valid_item columns) items = true →
  forallb is_Metric (items ≫= expansion (bundle_without_features ref cur cm') columns) = true →
  let R := (run self ref (Some cur) cm).1 in
  ∃ payload report,
    _get_payload R = Ok payload
    ∧ _parse_payload uuid4' now' payload = Ok report
    ∧ ReportPy.id report = ReportPy.id R
    ∧ ReportPy.timestamp report = ReportPy.timestamp R
    ∧ ReportPy.metadata report = ReportPy.metadata R
    ∧ _first_level_metrics report = _first_level_metrics R
    ∧ ∀ include_render include exclude,
        as_dict find_metric_renderer report include_render include exclude
        = as_dict find_metric_renderer R include_render include exclude.
Proof.
  intros self cm' columns Hverify Hvalid Hmetrics R.
  destruct (run_appends self ref cur cm items [] Hverify) as (Hflm & Hreg & _);
    [cbn; by rewrite app_nil_r | done | by left |].
  destruct (payload_round_trip find_metric_renderer uuid4' now' R)
    as (payload & report & ? & ? & ? & ? & ? & ? & ? & ?).
  - intros o Ho. subst R. rewrite Hflm in Ho. rewrite Hreg. cbn in Ho.
    split; [|done]. rewrite forallb_forall in Hmetrics.
    by apply Hmetrics, list_elem_of_In.
  - by exists payload, report.
Qed.

End FirstRun.

Import Examples.

Lemma run_expansion_order_witness :
  _first_level_metrics
    (run (new_report [metric "MetricA"; PresetB; GeneratorC]) None (Some three_rows) None).1
  = [metric "MetricA"; metric "MetricD"; metric "MetricF"; metric "MetricG"; metric "MetricH"]
  ∧ ctx_metrics (context (_inner_suite
      (run (new_report [metric "MetricA"; PresetB; GeneratorC]) None (Some three_rows) None).1))
    = [metric "MetricA"; metric "MetricD"; metric "MetricF"; metric "MetricG"; metric "MetricH"].
Proof.
  exact (run_expansion_order 4%N 0 [metric "MetricA"; PresetB; GeneratorC]
           None None None None None three_rows None eq_refl eq_refl).
Defined.

Lemma run_invalid_item_witness :
  (run (new_report [metric "MetricA"; AnObject "Widget(42)"; metric "MetricB"])
       None (Some three_rows) None).2
  = Raise (ValueError
      "Incorrect item instead of a metric or metric preset was passed to Report").
Proof.
  exact (run_invalid_item
           (new_report [metric "MetricA"; AnObject "Widget(42)"; metric "MetricB"])
           None three_rows None [metric "MetricA"] "Widget(42)" [metric "MetricB"]
           eq_refl eq_refl eq_refl).
Defined.

(** C7 as the specification states it fails: the message of the error does
    not contain what [str] prints for the offending object. *)
Lemma run_invalid_item_not_named :
  ∃ msg,
    (run (new_report [AnObject "Widget(42)"]) None (Some three_rows) None).2
    = Raise (ValueError msg)
    ∧ message_names msg (AnObject "Widget(42)") = false.
Proof. eexists. split; reflexivity. Qed.

(** The error of a generator does carry the generator's name. *)
Example bad_generator_named :
  ∃ msg,
    (run (new_report [bad_generator]) None (Some three_rows) None).2 = Raise (ValueError msg)
    ∧ message_names msg bad_generator = true.
Proof. eexists. split; reflexivity. Qed.


(** C4: a second [run] resets the suite but not the first-level metrics:
    after two runs of a report on [[MetricA]] the suite holds the metric
    once and the first-level metrics hold it twice, and so does the
    structured view. *)
Theorem rerun_accumulates_first_level_metrics :
  let r1 := run (new_report [metric "MetricA"]) None (Some three_rows) None in
  let r2 := run r1.1 None (Some three_rows) None in
  r1.2 = Ok () ∧ r2.2 = Ok ()
  ∧ _first_level_metrics r1.1 = [metric "MetricA"]
  ∧ ctx_metrics (context (_inner_suite r2.1)) = [metric "MetricA"]
  ∧ _first_level_metrics r2.1 = [metric "MetricA"; metric "MetricA"]
  ∧ map fst <$> as_dict find_plain_renderer r2.1 false None None
    = Ok ["MetricA"; "MetricA"].
Proof. repeat split; reflexivity. Qed.

(** C1: a report whose generator gives one metric per column is run on a
    table with two columns and then on a table with one.  Both runs succeed;
    the payload of the report can be built and loaded after the first run,
    and cannot be built after the second: the first-level metrics still hold
    the metric of the column that is gone, which the suite no longer has. *)
Theorem payload_after_rerun_fails :
  let r1 := run (new_report [per_column]) None (Some three_rows) None in
  let r2 := run r1.1 None (Some one_column) None in
  r1.2 = Ok () ∧ r2.2 = Ok ()
  ∧ (payload ← _get_payload r1.1; report ← _parse_payload 4%N 0 payload;
     Ok (_first_level_metrics report)) = Ok (_first_level_metrics r1.1)
  ∧ _first_level_metrics r2.1
    = [column_metric "target"; column_metric "prediction"; column_metric "target"]
  ∧ ctx_metrics (context (_inner_suite r2.1)) = [column_metric "target"]
  ∧ _get_payload r2.1 = Raise NotInList.
Proof. repeat split; reflexivity. Qed.

End ReportFacts.

(** ** The tabular view *)

Module ViewFacts.
Import Pandas ReportPy.

Section AsPandas.
Context `{Collaborators}.
Variable find_metric_renderer : PyObj → RenderersDefinitions → outcome MetricRenderer.

Local Abbreviation renderable := (renderable find_metric_renderer).
Local Abbreviation tables_of := (tables_of find_metric_renderer).
Local Abbreviation group_tables := (group_tables find_metric_renderer).
Local Abbreviation as_pandas := (as_pandas find_metric_renderer).

(** A renderable metric, unfolded. *)
Lemma renderable_inv ctx o :
  renderable ctx o = true →
  ∃ m renderer, o = AMetric m ∧ find_metric_renderer o (renderers ctx) = Ok renderer.
Proof.
  unfold ReportPy.renderable. intros [Hm Hr]%andb_true_iff.
  destruct o as [m| | |]; try done.
  destruct (find_metric_renderer (AMetric m) (renderers ctx)) as [renderer|] eqn:Hf; [|done].
  by exists m, renderer.
Qed.

Lemma tables_of_cons ctx k m renderer l :
  find_metric_renderer (AMetric m) (renderers ctx) = Ok renderer →
  tables_of ctx k (AMetric m :: l)
  = (if bool_decide (class_name m = k)
     then [render_pandas renderer (AMetric m) (get_result ctx (AMetric m))] else [])
    ++ tables_of ctx k l.
Proof. intros Hf. unfold ReportPy.tables_of. cbn [mbind list_bind get_id]. by rewrite Hf. Qed.

Lemma tables_of_nil ctx k l :
  forallb (renderable ctx) l = true →
  tables_of ctx k l = [] ↔ k ∉ group_ids l.
Proof.
  induction l as [|o l IH]; cbn [forallb].
  - intros _. split; [intros _ Hk; inversion Hk | done].
  - intros [Ho Hl]%andb_true_iff. destruct (renderable_inv _ _ Ho) as (m & rd & -> & Hf).
    rewrite (tables_of_cons _ _ _ _ _ Hf).
    change (group_ids (AMetric m :: l)) with (class_name m :: group_ids l).
    rewrite not_elem_of_cons, <- (IH Hl). case_bool_decide; cbn.
    + split; [done|]. by intros [? _].
    + split; [by intros -> | by intros [_ ?]].
Qed.

(** The dictionary that the loop of [as_pandas] builds from [metrics]. *)
Lemma group_tables_lookup ctx group l (metrics : gmap string (list DataFrame)) :
  forallb (renderable ctx) l = true →
  ∃ metrics', group_tables ctx group l metrics = Ok metrics'
    ∧ ∀ k, metrics' !! k =
             if bool_decide (group = None ∨ group = Some k) then
               match tables_of ctx k l with
               | [] => metrics !! k
               | ts => Some (default [] (metrics !! k) ++ ts)
               end
             else metrics !! k.
Proof.
  revert metrics. induction l as [|o l IH]; intros metrics; cbn [forallb].
  - intros _. exists metrics. split; [done|]. intros k. by case_bool_decide.
  - intros [Ho Hl]%andb_true_iff. destruct (renderable_inv _ _ Ho) as (m & rd & -> & Hf).
    cbn [ReportPy.group_tables get_id]. rewrite Hf. cbn [mbind outcome_bind].
    case_bool_decide as Hskip.
    + destruct (IH metrics Hl) as (metrics' & -> & Hlook). exists metrics'.
      split; [done|]. intros k. rewrite Hlook, (tables_of_cons _ _ _ _ _ Hf).
      case_bool_decide as Hsel; [|done].
      case_bool_decide as Hk; [|done]. subst k.
      destruct Hskip as [Hnone Hsome]. by destruct Hsel.
    + match goal with |- context [ReportPy.group_tables _ _ _ _ ?m1] =>
        destruct (IH m1 Hl) as (metrics' & -> & Hlook) end.
      exists metrics'. split; [done|]. intros k. rewrite Hlook, (tables_of_cons _ _ _ _ _ Hf).
      destruct (decide (class_name m = k)) as [<-|Hne].
      * rewrite lookup_insert_eq. rewrite (bool_decide_eq_true_2 (class_name m = class_name m)) by done.
        case_bool_decide as Hsel.
        -- destruct (tables_of ctx (class_name m) l) as [|t ts]; simpl; [done|].
           by rewrite <- app_assoc.
        -- exfalso. apply Hsel. destruct group as [g|]; [|by left]. right.
           destruct (decide (g = class_name m)) as [->|?]; [done|].
           exfalso. apply Hskip. split; [done | congruence].
      * rewrite lookup_insert_ne by done.
        by rewrite (bool_decide_eq_false_2 (class_name m = k)) by done.
Qed.

(** The dictionary [result] of [as_pandas]: one table for every group that
    was asked for and has a metric. *)
Lemma as_pandas_result ctx group l :
  forallb (renderable ctx) l = true →
  ∃ metrics, group_tables ctx group l ∅ = Ok metrics
    ∧ ∀ k, (pd_concat <$> metrics) !! k =
             if bool_decide ((group = None ∨ group = Some k) ∧ k ∈ group_ids l)
             then Some (pd_concat (tables_of ctx k l)) else None.
Proof.
  intros Hl. destruct (group_tables_lookup ctx group l ∅ Hl) as (metrics & Hm & Hlook).
  exists metrics. split; [done|]. intros k. rewrite lookup_fmap, Hlook, lookup_empty.
  pose proof (tables_of_nil ctx k l Hl) as Hnil.
  case_bool_decide as Hsel.
  - destruct (tables_of ctx k l) as [|t ts] eqn:Ht.
    + rewrite bool_decide_eq_false_2; [done|]. intros [_ Hk]. by apply Hnil.
    + rewrite bool_decide_eq_true_2; [done|]. split; [done|].
      destruct (decide (k ∈ group_ids l)) as [|Hk]; [done|]. by apply Hnil in Hk.
  - rewrite bool_decide_eq_false_2; [done|]. by intros [? _].
Qed.

(** C8: the dispatch of [as_pandas] on a report whose first-level metrics
    all have a renderer.  With no group asked for, it returns the table of
    the only group when all metrics are of one group, and the dictionary from
    group to table when there are two different groups; with a group asked
    for, it raises the error of the unknown group when no first-level metric
    is of that group, and returns the concatenated table of the group
    otherwise. *)
Theorem as_pandas_dispatch self :
  let ctx := context (_inner_suite self) in
  let l := _first_level_metrics self in
  forallb (renderable ctx) l = true →
  (∀ g, g ∈ group_ids l → (∀ k, k ∈ group_ids l → k = g) →
        as_pandas self None = Ok (OneTable (pd_concat (tables_of ctx g l))))
  ∧ (∀ g1 g2, g1 ∈ group_ids l → g2 ∈ group_ids l → g1 ≠ g2 →
        ∃ d, as_pandas self None = Ok (TablesByGroup d)
             ∧ ∀ k, d !! k = if bool_decide (k ∈ group_ids l)
                             then Some (pd_concat (tables_of ctx k l)) else None)
  ∧ (∀ g, g ∉ group_ids l →
        as_pandas self (Some g)
        = Raise (ValueError ("Metric group " +:+ g +:+ " not found in this report")))
  ∧ (∀ g, g ∈ group_ids l →
        as_pandas self (Some g) = Ok (OneTable (pd_concat (tables_of ctx g l)))).
Proof.
  intros ctx l Hl. unfold ReportPy.as_pandas. fold ctx l.
  split; [|split; [|split]].
  - intros g Hg Hone.
    destruct (as_pandas_result ctx None l Hl) as (metrics & -> & Hlook).
    cbn [mbind outcome_bind].
    assert (pd_concat <$> metrics = {[ g := pd_concat (tables_of ctx g l) ]}) as ->.
    { apply map_eq. intros k. rewrite Hlook. destruct (decide (k = g)) as [->|Hne].
      - rewrite lookup_singleton_eq, bool_decide_eq_true_2; [done|]. split; [by left | done].
      - rewrite lookup_singleton_ne by done. rewrite bool_decide_eq_false_2; [done|].
        intros [_ Hk]. by apply Hne, Hone. }
    by rewrite map_to_list_singleton.
  - intros g1 g2 Hg1 Hg2 Hne.
    destruct (as_pandas_result ctx None l Hl) as (metrics & -> & Hlook).
    cbn [mbind outcome_bind]. exists (pd_concat <$> metrics).
    assert (∀ k, (pd_concat <$> metrics) !! k
                 = if bool_decide (k ∈ group_ids l)
                   then Some (pd_concat (tables_of ctx k l)) else None) as Hd.
    { intros k. rewrite Hlook. case_bool_decide as Hsel; case_bool_decide as Hk; try done.
      - by destruct Hsel.
      - exfalso. apply Hsel. split; [by left | done]. }
    split; [|done].
    destruct (map_to_list (pd_concat <$> metrics)) as [|[k t] [|]] eqn:Hlist; try done.
    exfalso. apply (f_equal (list_to_map (M := gmap string DataFrame))) in Hlist.
    rewrite list_to_map_to_list in Hlist. cbn in Hlist.
    pose proof (Hd g1) as H1. pose proof (Hd g2) as H2.
    rewrite Hlist, bool_decide_eq_true_2 in H1, H2 by done.
    apply lookup_insert_Some in H1 as [[<- _]|[_ H1]]; [|by rewrite lookup_empty in H1].
    apply lookup_insert_Some in H2 as [[<- _]|[_ H2]]; [|by rewrite lookup_empty in H2].
    done.
  - intros g Hg.
    destruct (as_pandas_result ctx (Some g) l Hl) as (metrics & -> & Hlook).
    cbn [mbind outcome_bind]. rewrite Hlook, bool_decide_eq_false_2; [done|].
    by intros [_ ?].
  - intros g Hg.
    destruct (as_pandas_result ctx (Some g) l Hl) as (metrics & -> & Hlook).
    cbn [mbind outcome_bind]. rewrite Hlook, bool_decide_eq_true_2; [done|].
    split; [by right | done].
Qed.

End AsPandas.

Import Examples.

Lemma as_pandas_dispatch_witness :
  let one := (run (new_report [per_column]) None (Some three_rows) None).1 in
  as_pandas find_plain_renderer one None
  = Ok (OneTable (pd_concat (tables_of find_plain_renderer (context (_inner_suite one))
                               "ColumnSummaryMetric" (_first_level_metrics one))))
  ∧ as_pandas find_plain_renderer one (Some "X")
    = Raise (ValueError "Metric group X not found in this report").
Proof.
  intros one.
  pose proof (as_pandas_dispatch find_plain_renderer one eq_refl) as (Hone & _ & Hnone & _).
  split.
  - apply Hone; [left|].
    intros k Hk. apply elem_of_cons in Hk as [->|Hk]; [done|].
    apply elem_of_cons in Hk as [->|Hk]; [done|]. inversion Hk.
  - apply Hnone. intros Hk.
    apply elem_of_cons in Hk as [[=]|Hk]. apply elem_of_cons in Hk as [[=]|Hk]. inversion Hk.
Defined.

(** Two groups: the view is a dictionary with one table for each. *)
Example as_pandas_two_groups :
  let two := (run (new_report [metric "MetricA"; metric "MetricB"; metric "MetricA"])
                  None (Some three_rows) None).1 in
  ∃ d, as_pandas find_plain_renderer two None = Ok (TablesByGroup d)
       ∧ rows <$> d !! "MetricA" = Some [row 3 [Finite 1]; row 3 [Finite 1]]
       ∧ rows <$> d !! "MetricB" = Some [row 3 [Finite 1]]
       ∧ size d = 2%nat.
Proof. eexists. split; [vm_compute; reflexivity|]. repeat split; reflexivity. Qed.

End ViewFacts.

(** ** More on [Report.run] *)

Module RunFacts.
Import Pandas ReportPy ReportFacts.

Section Run.
Context `{Collaborators}.

(** The fields of a report that the loop of [run] has no statement for. *)
Local Abbreviation untouched self :=
  (id self, timestamp self, metadata self, metrics self, options self,
   suite_options (_inner_suite self), _columns_info self).







(** When the verification of the options fails, [run] raises its error
    after the suite was reset: no metric is added to the first-level metrics,
    and the suite has lost the metrics and results of an earlier run. *)
Theorem run_verification_failure self ref cur cm e :
  verify_options (suite_options (_inner_suite self)) = Raise e →
  let r := run self ref (Some cur) cm in
  r.2 = Raise e
  ∧ _first_level_metrics r.1 = _first_level_metrics self
  ∧ ctx_metrics (context (_inner_suite r.1)) = []
  ∧ metric_results (context (_inner_suite r.1)) = [].
Proof.
  intros Hverify. unfold run.
  change (verify (_inner_suite (set_inner_suite (reset (_inner_suite
            (set_columns_info (process_columns cur (default default_column_mapping cm)) self)))
            (set_columns_info (process_columns cur (default default_column_mapping cm)) self))))
    with (verify_options (suite_options (_inner_suite self))).
  by rewrite Hverify.
Qed.

Lemma add_items_generator_stops data columns pre name generate post gpre x gpost self :
  forallb (valid_item columns) pre = true →
  generate columns = gpre ++ x :: gpost →
  forallb is_Metric gpre = true →
  is_Metric x = false →
  add_items data columns (pre ++ AGenerator name generate :: post) self
  = (add_all gpre (add_all (pre ≫= expansion data columns) self),
     Raise (ValueError ("Incorrect metric type in generator " +:+ name))).
Proof.
  intros Hpre Hgen Hgpre Hx. revert self Hpre.
  induction pre as [|item items IH]; intros self Hpre.
  - cbn [app add_items add_item]. by rewrite Hgen, (add_generated_stops _ _ _ _ _ Hgpre Hx).
  - cbn [forallb] in Hpre. apply andb_true_iff in Hpre as [Hitem Hitems].
    cbn [app add_items]. rewrite (add_item_valid _ _ _ _ Hitem), (IH _ Hitems).
    cbn [mbind list_bind]. by rewrite add_all_app.
Qed.

(** A generator of the specification list that generates an object that is
    not a metric stops [run] with the error that carries the generator's
    name: the items before the generator and the metrics it generated before
    that object are in the first-level metrics and in the suite, the rest of
    its output and the items after it are not, and nothing is calculated. *)
Theorem run_generator_error self ref cur cm pre name generate post gpre x gpost :
  let cm' := default default_column_mapping cm in
  let columns := process_columns cur cm' in
  let E := pre ≫= expansion (bundle_without_features ref cur cm') columns in
  verify_options (suite_options (_inner_suite self)) = Ok () →
  metrics self = pre ++ AGenerator name generate :: post →
  forallb (valid_item columns) pre = true →
  generate columns = gpre ++ x :: gpost →
  forallb is_Metric gpre = true →
  is_Metric x = false →
  let r := run self ref (Some cur) cm in
  r.2 = Raise (ValueError ("Incorrect metric type in generator " +:+ name))
  ∧ _first_level_metrics r.1 = _first_level_metrics self ++ E ++ gpre
  ∧ ctx_metrics (context (_inner_suite r.1)) = E ++ gpre
  ∧ metric_results (context (_inner_suite r.1)) = [].
Proof.
  intros cm' columns E Hverify Hitems Hpre Hgen Hgpre Hx. unfold run.
  fold cm' columns.
  change (verify (_inner_suite (set_inner_suite (reset (_inner_suite
            (set_columns_info columns self))) (set_columns_info columns self))))
    with (verify_options (suite_options (_inner_suite self))).
  rewrite Hverify. cbn [metrics set_inner_suite set_columns_info]. rewrite Hitems.
  fold (bundle_without_features ref cur cm').
  rewrite (add_items_generator_stops _ _ _ _ _ _ _ _ _ _ Hpre Hgen Hgpre Hx).
  fold E. cbn [fst snd]. split; [done|].
  rewrite !add_all_first_level, !add_all_registered. cbn. rewrite <- app_assoc.
  split; [done|]. split; [done|].
  assert (∀ ms s, metric_results (context (_inner_suite (add_all ms s)))
                  = metric_results (context (_inner_suite s))) as Hres.
  { intros ms. induction ms as [|m ms IH]; intros s; [done|].
    cbn [add_all foldl]. fold (add_all ms (append_metric m s)). by rewrite IH. }
  by rewrite !Hres.
Qed.

End Run.

Import Examples MoreExamples.


Lemma run_verification_failure_witness :
  let r := @run _ failing_verification
             (@__init__ _ failing_verification 4%N 0 [metric "MetricA"] None None None None)
             None (Some three_rows) None in
  r.2 = Raise (ValueError "conflicting options")
  ∧ @_first_level_metrics _ failing_verification r.1 = [].
Proof.
  intros r.
  pose proof (@run_verification_failure _ failing_verification
                (@__init__ _ failing_verification 4%N 0 [metric "MetricA"] None None None None)
                None three_rows None (ValueError "conflicting options") eq_refl)
    as (Herr & Hflm & _).
  split; [exact Herr | exact Hflm].
Defined.

Lemma run_generator_error_witness :
  let r := run (new_report [metric "MetricH"; bad_generator; metric "MetricG"])
               None (Some three_rows) None in
  r.2 = Raise (ValueError "Incorrect metric type in generator BadGenerator")
  ∧ _first_level_metrics r.1 = [metric "MetricH"; metric "MetricA"].
Proof.
  intros r.
  pose proof (run_generator_error
                (new_report [metric "MetricH"; bad_generator; metric "MetricG"])
                None three_rows None [metric "MetricH"] "BadGenerator"
                (λ _, [metric "MetricA"; AnObject "42"; metric "MetricB"])
                [metric "MetricG"] [metric "MetricA"] (AnObject "42") [metric "MetricB"]
                eq_refl eq_refl eq_refl eq_refl eq_refl eq_refl) as (Herr & Hflm & _).
  split; [exact Herr | exact Hflm].
Defined.

End RunFacts.

(** ** The structured view *)

Module StructuredViewFacts.
Import Pandas ReportPy ViewFacts.

Section AsDict.
Context `{Collaborators}.
Variable find_metric_renderer : PyObj → RenderersDefinitions → outcome MetricRenderer.

Local Abbreviation renderable := (renderable find_metric_renderer).
Local Abbreviation as_dict := (as_dict find_metric_renderer).

(** On a report whose first-level metrics all have a renderer, [as_dict]
    returns one entry for every first-level metric, in their order, each
    under the id of its metric. *)
Theorem as_dict_entries self include_render include exclude :
  forallb (renderable (context (_inner_suite self))) (_first_level_metrics self) = true →
  ∃ entries,
    as_dict self include_render include exclude = Ok entries
    ∧ map fst entries = group_ids (_first_level_metrics self)
    ∧ length entries = length (_first_level_metrics self).
Proof.
  unfold ReportPy.as_dict. generalize (context (_inner_suite self)) as ctx.
  intros ctx. induction (_first_level_metrics self) as [|o l IH]; cbn [forallb].
  - intros _. by exists [].
  - intros [Ho Hl]%andb_true_iff.
    destruct (renderable_inv _ _ _ Ho) as (m & renderer & -> & Hf).
    destruct (IH Hl) as (entries & Hentries & Hids & Hlen).
    cbn [mapM]. rewrite Hf. cbn [mbind outcome_bind get_id]. rewrite Hentries.
    eexists. split; [done|]. cbn. by rewrite Hids, Hlen.
Qed.

(** [as_dict] stops at the first first-level metric for which no renderer
    is found, with the error of the lookup. *)
Theorem as_dict_unrenderable self include_render include exclude pre o post e :
  _first_level_metrics self = pre ++ o :: post →
  forallb (renderable (context (_inner_suite self))) pre = true →
  find_metric_renderer o (renderers (context (_inner_suite self))) = Raise e →
  as_dict self include_render include exclude = Raise e.
Proof.
  unfold ReportPy.as_dict. intros -> Hpre Ho.
  induction pre as [|o' pre IH]; cbn [app mapM].
  - by rewrite Ho.
  - cbn [forallb] in Hpre. apply andb_true_iff in Hpre as [Ho' Hpre].
    destruct (renderable_inv _ _ _ Ho') as (m & renderer & -> & Hf).
    rewrite Hf. cbn [mbind outcome_bind get_id]. by rewrite (IH Hpre).
Qed.

(** The field filters are looked up under the ids of the first-level
    metrics only: two pairs of filters that agree on those ids give the same
    view. *)
Theorem as_dict_filters_by_id self include_render include exclude include' exclude' :
  (∀ g, g ∈ group_ids (_first_level_metrics self) →
        default ∅ include !! g = default ∅ include' !! g
        ∧ default ∅ exclude !! g = default ∅ exclude' !! g) →
  as_dict self include_render include exclude
  = as_dict self include_render include' exclude'.
Proof.
  unfold ReportPy.as_dict. generalize (context (_inner_suite self)) as ctx. intros ctx.
  induction (_first_level_metrics self) as [|o l IH]; intros Hagree; [done|].
  cbn [mapM]. destruct (find_metric_renderer o (renderers ctx)) as [renderer|]; [|done].
  cbn [mbind outcome_bind]. destruct o as [m| | |]; cbn [get_id mbind outcome_bind]; try done.
  destruct (Hagree (class_name m)) as [-> ->]; [left|].
  rewrite IH; [done|]. intros g Hg. apply Hagree. by right.
Qed.

End AsDict.

Import Examples MoreExamples.

Lemma as_dict_entries_witness :
  ∃ entries,
    as_dict find_plain_renderer two_groups false None None = Ok entries
    ∧ map fst entries = ["MetricA"; "MetricB"; "MetricA"]
    ∧ length entries = 3%nat.
Proof. exact (as_dict_entries find_plain_renderer two_groups false None None eq_refl). Defined.

Lemma as_dict_unrenderable_witness :
  as_dict find_plain_renderer unrenderable true None None = Raise (KeyError "42").
Proof.
  exact (as_dict_unrenderable find_plain_renderer unrenderable true None None
           [metric "MetricA"; metric "MetricA"] (AnObject "42") [metric "MetricB"]
           (KeyError "42") eq_refl eq_refl eq_refl).
Defined.

Lemma as_dict_filters_by_id_witness :
  as_dict find_plain_renderer two_groups false (Some {[ "MetricZ" := () ]}) None
  = as_dict find_plain_renderer two_groups false None (Some {[ "MetricY" := () ]}).
Proof.
  apply (as_dict_filters_by_id (H0 := plain_collaborators) find_plain_renderer two_groups false).
  intros g Hg. unfold default, from_option, Datatypes.id.
  assert ("MetricZ" ≠ g ∧ "MetricY" ≠ g) as [Hz Hy].
  { repeat (apply elem_of_cons in Hg as [->|Hg]; [done|]). inversion Hg. }
  by rewrite !lookup_singleton_ne, !lookup_empty by done.
Defined.

End StructuredViewFacts.

(** ** More on the tabular view *)

Module TabularViewFacts.
Import Pandas ReportPy ViewFacts.

Section AsPandas.
Context `{Collaborators}.
Variable find_metric_renderer : PyObj → RenderersDefinitions → outcome MetricRenderer.

Local Abbreviation renderable := (renderable find_metric_renderer).
Local Abbreviation tables_of := (tables_of find_metric_renderer).
Local Abbreviation group_tables := (group_tables find_metric_renderer).
Local Abbreviation as_pandas := (as_pandas find_metric_renderer).

Local Abbreviation not_found group :=
  (ValueError ("Metric group " +:+ group +:+ " not found in this report")).

Lemma group_tables_app ctx group l1 l2 metrics :
  group_tables ctx group (l1 ++ l2) metrics
  = (metrics' ← group_tables ctx group l1 metrics; group_tables ctx group l2 metrics').
Proof.
  revert metrics. induction l1 as [|o l1 IH]; intros metrics; [done|].
  cbn [app ReportPy.group_tables].
  destruct (find_metric_renderer o (renderers ctx)) as [renderer|]; [|done].
  cbn [mbind outcome_bind]. destruct (get_id o) as [g|]; [|done].
  cbn [mbind outcome_bind]. case_bool_decide; apply IH.
Qed.

(** A report without first-level metrics -- one that was never run, or
    whose list expands to nothing -- has an empty dictionary as its tabular
    view, and no group can be asked for. *)
Theorem as_pandas_no_metrics self :
  _first_level_metrics self = [] →
  as_pandas self None = Ok (TablesByGroup ∅)
  ∧ ∀ group, as_pandas self (Some group) = Raise (not_found group).
Proof.
  intros Hflm. unfold ReportPy.as_pandas. rewrite Hflm.
  cbn [ReportPy.group_tables mbind outcome_bind]. rewrite fmap_empty. split.
  - by rewrite map_to_list_empty.
  - intros group. by rewrite lookup_empty.
Qed.

(** The renderer of every first-level metric is looked up before the group
    is compared: a first-level metric without a renderer makes [as_pandas]
    fail with the error of the lookup, whatever group is asked for, also one
    the metric does not belong to. *)
Theorem as_pandas_unrenderable self group pre o post e :
  _first_level_metrics self = pre ++ o :: post →
  forallb (renderable (context (_inner_suite self))) pre = true →
  find_metric_renderer o (renderers (context (_inner_suite self))) = Raise e →
  as_pandas self group = Raise e.
Proof.
  intros Hflm Hpre Ho. unfold ReportPy.as_pandas. rewrite Hflm, group_tables_app.
  destruct (group_tables_lookup find_metric_renderer _ group pre ∅ Hpre) as (metrics & -> & _).
  cbn [mbind outcome_bind ReportPy.group_tables]. by rewrite Ho.
Qed.

(** Asking for a group agrees with asking for all of them: when the view
    without a group is a dictionary, the view of a group is the entry of the
    dictionary, and the error of the unknown group where there is no entry;
    when it is a single table, that table is the view of every group that
    exists. *)
Theorem as_pandas_group_of_all self :
  forallb (renderable (context (_inner_suite self))) (_first_level_metrics self) = true →
  match as_pandas self None with
  | Ok (TablesByGroup d) =>
      ∀ group, as_pandas self (Some group)
               = match d !! group with
                 | Some t => Ok (OneTable t)
                 | None => Raise (not_found group)
                 end
  | Ok (OneTable t) =>
      ∀ group, group ∈ group_ids (_first_level_metrics self) →
               as_pandas self (Some group) = Ok (OneTable t)
  | Raise _ => False
  end.
Proof.
  intros Hl. unfold ReportPy.as_pandas.
  destruct (as_pandas_result find_metric_renderer _ None _ Hl) as (all & -> & Hall).
  cbn [mbind outcome_bind].
  assert (∀ group,
            (group_tables (context (_inner_suite self)) (Some group)
                          (_first_level_metrics self) ∅
             ≫= λ metrics : gmap string (list DataFrame),
                  match (pd_concat <$> metrics) !! group return outcome PandasView with
                  | Some t => Ok (OneTable t)
                  | None => Raise (not_found group)
                  end)
            = match (pd_concat <$> all) !! group return outcome PandasView with
              | Some t => Ok (OneTable t)
              | None => Raise (not_found group)
              end) as Hgroup.
  { intros group.
    destruct (as_pandas_result find_metric_renderer _ (Some group) _ Hl) as (one & -> & Hone).
    cbn [mbind outcome_bind]. rewrite Hone, Hall.
    case_bool_decide as H1; case_bool_decide as H2; try done.
    - exfalso. apply H2. split; [by left | by destruct H1].
    - exfalso. apply H1. split; [by right | by destruct H2]. }
  destruct (map_to_list (pd_concat <$> all)) as [|[k t] [|]] eqn:Hlist; try exact Hgroup.
  intros group Hin. rewrite Hgroup.
  apply (f_equal (list_to_map (M := gmap string DataFrame))) in Hlist.
  rewrite list_to_map_to_list in Hlist. cbn in Hlist.
  pose proof (Hall group) as Hg. rewrite bool_decide_eq_true_2 in Hg by (split; [by left | done]).
  rewrite Hlist in Hg |- *.
  apply lookup_insert_Some in Hg as [[<- _]|[_ Hg]]; [|by rewrite lookup_empty in Hg].
  by rewrite lookup_insert_eq.
Qed.

End AsPandas.

Import Examples MoreExamples.

Lemma as_pandas_no_metrics_witness :
  as_pandas find_plain_renderer (new_report [PresetB]) None = Ok (TablesByGroup ∅)
  ∧ as_pandas find_plain_renderer (new_report [PresetB]) (Some "MetricD")
    = Raise (ValueError "Metric group MetricD not found in this report").
Proof.
  pose proof (as_pandas_no_metrics (H0 := plain_collaborators) find_plain_renderer
                (new_report [PresetB]) eq_refl) as [Hnone Hsome].
  split; [exact Hnone | exact (Hsome "MetricD")].
Defined.

Lemma as_pandas_unrenderable_witness :
  as_pandas find_plain_renderer unrenderable (Some "MetricA") = Raise (KeyError "42").
Proof.
  exact (as_pandas_unrenderable (H0 := plain_collaborators) find_plain_renderer unrenderable
           (Some "MetricA") [metric "MetricA"; metric "MetricA"] (AnObject "42")
           [metric "MetricB"] (KeyError "42") eq_refl eq_refl eq_refl).
Defined.

Lemma as_pandas_group_of_all_witness :
  match as_pandas find_plain_renderer two_groups None with
  | Ok (TablesByGroup d) =>
      ∀ group, as_pandas find_plain_renderer two_groups (Some group)
               = match d !! group with
                 | Some t => Ok (OneTable t)
                 | None => Raise (ValueError ("Metric group " +:+ group
                                              +:+ " not found in this report"))
                 end
  | Ok (OneTable t) =>
      ∀ group, group ∈ group_ids (_first_level_metrics two_groups) →
               as_pandas find_plain_renderer two_groups (Some group) = Ok (OneTable t)
  | Raise _ => False
  end.
Proof.
  exact (as_pandas_group_of_all (H0 := plain_collaborators) find_plain_renderer two_groups
           eq_refl).
Defined.

End TabularViewFacts.

(** ** More on the payload *)

Module PayloadFacts.
Import Pandas ReportPy ReportFacts.

Section Payload.
Context `{Collaborators}.

(** An index that [l.index(o)] returns is the first position of [l] that
    holds an object equal to [o]. *)
Lemma index_first o l i :
  index o l = Ok i →
  ∃ n x, i = Z.of_nat n ∧ l !! n = Some x ∧ py_eqb x o = true
         ∧ ∀ j y, (j < n)%nat → l !! j = Some y → py_eqb y o = false.
Proof.
  revert i. induction l as [|x l IH]; intros i; [done|].
  cbn [index]. destruct (py_eqb x o) eqn:Heq.
  - intros [= <-]. exists 0%nat, x. repeat split; try done. lia.
  - destruct (index o l) as [i'|]; [|done]. cbn. intros [= <-].
    destruct (IH i' eq_refl) as (n & y & -> & Hn & Hy & Hfirst).
    exists (S n), y. repeat split; [lia|done|done|].
    intros [|j] z Hj; cbn; [by intros [= <-]|]. apply Hfirst. lia.
Qed.



Lemma mapM_is_Ok {A B} (f : A → outcome B) (l : list A) :
  is_Ok (mapM f l) = true ↔ Forall (λ a, is_Ok (f a) = true) l.
Proof.
  induction l as [|a l IH]; cbn [mapM]; [done|].
  rewrite Forall_cons, <- IH. destruct (f a); cbn.
  - destruct (mapM f l); cbn; split; try done; by intros [_ ?].
  - split; [done | by intros [? _]].
Qed.

Lemma mapM_Raise {A B} (f : A → outcome B) (l : list A) e :
  mapM f l = Raise e → ∃ a, a ∈ l ∧ f a = Raise e.
Proof.
  induction l as [|a l IH]; cbn [mapM]; [done|].
  destruct (f a) as [b|e'] eqn:Hfa; cbn.
  - destruct (mapM f l); cbn; [done|]. intros [= ->].
    destruct (IH eq_refl) as (a' & Ha' & Hf). exists a'. split; [by right|done].
  - intros [= ->]. exists a. split; [left|done].
Qed.


(** The payload that is built holds the id, the timestamp and the metadata
    of the report and the snapshot of its context, and one index for every
    first-level metric, in their order: the first position of the snapshot's
    metrics that holds a metric equal to it. *)
Theorem get_payload_indices self payload :
  _get_payload self = Ok payload →
  payload_id payload = id self
  ∧ payload_timestamp payload = timestamp self
  ∧ payload_metadata payload = metadata self
  ∧ suite payload = from_context (context (_inner_suite self))
  ∧ Forall2 (λ o i, ∃ n x, i = Z.of_nat n
                           ∧ cp_metrics (suite payload) !! n = Some x
                           ∧ py_eqb x o = true
                           ∧ ∀ j y, (j < n)%nat → cp_metrics (suite payload) !! j = Some y →
                                    py_eqb y o = false)
            (_first_level_metrics self) (metrics_ids payload).
Proof.
  unfold _get_payload.
  destruct (mapM _ (_first_level_metrics self)) as [ids|] eqn:Hids; [|done].
  cbn [mbind outcome_bind]. intros [= <-]. cbn. repeat split.
  revert ids Hids. induction (_first_level_metrics self) as [|o l IH]; intros ids.
  - cbn. intros [= <-]. constructor.
  - cbn [mapM]. destruct (index o _) as [i|] eqn:Hi; [|done]. cbn [mbind outcome_bind].
    destruct (mapM _ l) as [ids'|]; [|done]. cbn. intros [= <-].
    constructor; [by apply index_first | by apply IH].
Qed.

Lemma list_getitem_is_Ok {A} (l : list A) (i : Z) :
  is_Ok (list_getitem l i) = true ↔ - Z.of_nat (length l) ≤ i < Z.of_nat (length l).
Proof.
  unfold list_getitem.
  destruct (Z.ltb_spec i 0).
  - destruct (Z.leb_spec 0 (i + Z.of_nat (length l)));
      destruct (Z.ltb_spec (i + Z.of_nat (length l)) (Z.of_nat (length l)));
      cbn [andb]; try (split; [done|lia]).
    destruct (lookup_lt_is_Some_2 l (Z.to_nat (i + Z.of_nat (length l)))) as [x ->]; [lia|].
    split; [lia|done].
  - destruct (Z.leb_spec 0 i); destruct (Z.ltb_spec i (Z.of_nat (length l)));
      cbn [andb]; try (split; [done|lia]).
    destruct (lookup_lt_is_Some_2 l (Z.to_nat i)) as [x ->]; [lia|].
    split; [lia|done].
Qed.

Lemma list_getitem_Raise {A} (l : list A) (i : Z) e :
  list_getitem l i = Raise e → e = IndexError.
Proof.
  unfold list_getitem. destruct (_ && _); [|by intros [= <-]].
  destruct (l !! _); [done | by intros [= <-]].
Qed.

(** A payload loads exactly when each of its indices is within the bounds
    of the snapshot's metrics, counting from the end when negative; when it
    does not load, the error is an index error. *)
Theorem load_is_Ok uuid4 now payload :
  let n := Z.of_nat (length (cp_metrics (suite payload))) in
  (is_Ok (load uuid4 now payload) = true
   ↔ Forall (λ i, - n ≤ i < n) (metrics_ids payload))
  ∧ ∀ e, load uuid4 now payload = Raise e → e = IndexError.
Proof.
  intros n. unfold load. cbn [to_context ctx_metrics]. split.
  - transitivity (is_Ok (mapM (λ i, list_getitem (cp_metrics (suite payload)) i)
                           (metrics_ids payload)) = true).
    { by destruct (mapM _ _). }
    rewrite mapM_is_Ok. apply Forall_iff. intros i. apply list_getitem_is_Ok.
  - intros e. destruct (mapM _ _) as [ms|e'] eqn:Hms; [done|].
    cbn. intros [= ->]. apply mapM_Raise in Hms as (i & _ & Hi).
    by apply list_getitem_Raise in Hi.
Qed.

Lemma indices_getitem (first_level registered : list PyObj) ids :
  mapM (λ m, index m registered) first_level = Ok ids →
  ∃ loaded, mapM (λ i, list_getitem registered i) ids = Ok loaded
            ∧ Forall2 (λ a b, py_eqb a b = true) loaded first_level.
Proof.
  revert ids. induction first_level as [|o l IH]; intros ids.
  - cbn. intros [= <-]. by exists [].
  - cbn [mapM]. destruct (index o registered) as [i|] eqn:Hi; [|done].
    cbn [mbind outcome_bind]. destruct (mapM _ l) as [ids'|]; [|done].
    cbn. intros [= <-]. destruct (IH ids' eq_refl) as (loaded & Hloaded & Heq).
    destruct (index_first _ _ _ Hi) as (n & x & -> & Hn & Hx & _).
    exists (x :: loaded). cbn [mapM]. rewrite (list_getitem_lookup _ _ _ Hn), Hloaded.
    split; [done|]. by constructor.
Qed.

(** Whenever the payload of a report can be built it loads, to the same
    report whatever the fallback id and clock: the loaded report has the id,
    the timestamp, the metadata and the context of the original, and
    first-level metrics equal to the original's one by one; its
    specification list is its first-level metrics, not the original list, and
    its options are the default ones. *)
Theorem payload_loads self payload :
  _get_payload self = Ok payload →
  ∃ report,
    (∀ uuid4 now, _parse_payload uuid4 now payload = Ok report)
    ∧ id report = id self
    ∧ timestamp report = timestamp self
    ∧ metadata report = metadata self
    ∧ context (_inner_suite report) = context (_inner_suite self)
    ∧ Forall2 (λ a b, py_eqb a b = true)
        (_first_level_metrics report) (_first_level_metrics self)
    ∧ metrics report = _first_level_metrics report
    ∧ options report = default_options
    ∧ _columns_info report = None.
Proof.
  assert (to_context (from_context (context (_inner_suite self)))
          = context (_inner_suite self)) as Hctx by by destruct (context (_inner_suite self)).
  unfold _get_payload, _parse_payload, load. cbn [from_context cp_metrics].
  destruct (mapM _ (_first_level_metrics self)) as [ids|] eqn:Hids; [|done].
  cbn [mbind outcome_bind]. intros [= <-].
  cbn [suite metrics_ids payload_id payload_timestamp payload_metadata].
  rewrite Hctx. destruct (indices_getitem _ _ _ Hids) as (loaded & -> & Heq).
  cbn [mbind outcome_bind].
  exists (set_inner_suite
            {| suite_options := default_options; context := context (_inner_suite self) |}
            (set_first_level_metrics loaded
               (__init__ 0%N 0 loaded None (Some (timestamp self)) (Some (id self))
                  (Some (metadata self))))).
  split; [intros; reflexivity|]. cbn. by repeat split.
Qed.

End Payload.

Import Examples MoreExamples.

Lemma get_payload_indices_witness :
  ∃ payload,
    _get_payload two_groups = Ok payload
    ∧ payload_id payload = 4%N
    ∧ suite payload = from_context (context (_inner_suite two_groups))
    ∧ metrics_ids payload = [0; 1; 0].
Proof.
  eexists. split; [reflexivity|].
  destruct (get_payload_indices two_groups _ eq_refl) as (Hid & _ & _ & Hsuite & _).
  split; [exact Hid|]. split; [exact Hsuite | reflexivity].
Defined.

Lemma payload_loads_witness :
  ∃ payload report,
    _get_payload two_groups = Ok payload
    ∧ _parse_payload 7%N 9 payload = Ok report
    ∧ _first_level_metrics report = [metric "MetricA"; metric "MetricB"; metric "MetricA"].
Proof.
  destruct (payload_loads two_groups _ eq_refl) as (report & Hload & _).
  eexists _, report. split; [reflexivity|]. split; [apply Hload|].
  specialize (Hload 7%N 9). vm_compute in Hload. by injection Hload as <-.
Defined.

End PayloadFacts.

(** ** The dashboard *)

Module DashboardFacts.
Import Pandas ReportPy DashboardPy.

Lemma has_char_app c s1 s2 : has_char c (s1 +:+ s2) = has_char c s1 || has_char c s2.
Proof.
  induction s1 as [|c' s1 IH]; [done|].
  simpl. by rewrite IH, orb_assoc.
Qed.

Lemma remove_dashes_no_dash s : has_char "-" (remove_dashes s) = false.
Proof.
  induction s as [|c s IH]; [done|]. cbn [remove_dashes].
  destruct (Ascii.eqb c "-") eqn:Hc; [done|]. cbn [has_char].
  by rewrite Ascii.eqb_sym, Hc, IH.
Qed.

Lemma remove_dashes_keeps c s :
  c ≠ "-"%char → has_char c (remove_dashes s) = has_char c s.
Proof.
  intros Hc. induction s as [|c' s IH]; [done|]. cbn [remove_dashes].
  destruct (Ascii.eqb c' "-") eqn:Hc'; cbn [has_char]; rewrite IH; [|done].
  apply Ascii.eqb_eq in Hc' as ->.
  by rewrite (proj2 (Ascii.eqb_neq c "-") Hc).
Qed.

Lemma bind_Ok {A B} (f : A → outcome B) (a : A) : Ok a ≫= f = f a.
Proof. reflexivity. Qed.

Section Dashboard.
Context `{Collaborators}.
Variable find_metric_renderer : PyObj → RenderersDefinitions → outcome MetricRenderer.
Variables ColorOptions Widget Value Dataclass : Type.
Variable color_options : Options → ColorOptions.
Variable render_html :
  MetricRenderer → ColorOptions → PyObj → option MetricResult → list Widget.
Variable asdict : Dataclass → Value.
Variable get_additional_graphs : Widget → list (Graph Value Dataclass).

Local Abbreviation build :=
  (_build_dashboard_info find_metric_renderer ColorOptions Widget Value Dataclass
     color_options render_html asdict get_additional_graphs).
Local Abbreviation render_tests :=
  (render_tests find_metric_renderer ColorOptions Widget Value Dataclass
     render_html get_additional_graphs).
Local Abbreviation widgets_of :=
  (widgets_of find_metric_renderer ColorOptions Widget color_options render_html).
Local Abbreviation has_renderer := (has_renderer find_metric_renderer).
Local Abbreviation graphs_dict := (graphs_dict Value Dataclass asdict).
Local Abbreviation graph_value := (graph_value Value Dataclass asdict).
Local Abbreviation details_of := (details_of Value Dataclass).
Local Abbreviation graph_id := (graph_id Value Dataclass).

Lemma fmap_bind_details (html : list Widget) :
  html ≫= (λ info_item, details_of <$> get_additional_graphs info_item)
  = details_of <$> (html ≫= get_additional_graphs).
Proof.
  induction html as [|w html IH]; [done|].
  by rewrite !bind_cons, fmap_app, IH.
Qed.

Lemma render_tests_all self tests ws gs :
  forallb (has_renderer (context (_inner_suite self))) tests = true →
  render_tests (context (_inner_suite self)) (color_options (options self)) tests ws gs
  = Ok (ws ++ (tests ≫= widgets_of self),
        gs ++ (details_of <$> ((tests ≫= widgets_of self) ≫= get_additional_graphs))).
Proof.
  revert ws gs. induction tests as [|test tests IH]; intros ws gs; cbn [forallb].
  - intros _. cbn. by rewrite !app_nil_r.
  - intros [Ht Hts]%andb_true_iff. rewrite bind_cons, bind_app, fmap_app.
    cbn [DashboardPy.render_tests]. unfold DashboardPy.has_renderer in Ht.
    unfold DashboardPy.widgets_of at 1 3.
    destruct (find_metric_renderer test _) as [renderer|] eqn:Hf; [|done].
    rewrite bind_Ok, (IH _ _ Hts), <- !app_assoc.
    by rewrite fmap_bind_details.
Qed.

Lemma render_tests_stops self pre test post ws gs e :
  forallb (has_renderer (context (_inner_suite self))) pre = true →
  find_metric_renderer test (renderers (context (_inner_suite self))) = Raise e →
  render_tests (context (_inner_suite self)) (color_options (options self))
    (pre ++ test :: post) ws gs = Raise e.
Proof.
  revert ws gs. induction pre as [|o pre IH]; intros ws gs; cbn [forallb app].
  - intros _ Hf. cbn. by rewrite Hf.
  - intros [Ho Hpre]%andb_true_iff Hf. cbn [DashboardPy.render_tests].
    unfold DashboardPy.has_renderer in Ho.
    destruct (find_metric_renderer o _) as [renderer|]; [|done].
    cbn [mbind outcome_bind]. by apply IH.
Qed.

Lemma graphs_dict_snoc items item :
  graphs_dict (items ++ [item])
  = <[details_id Value Dataclass item
        := info_value Value Dataclass asdict (info Value Dataclass item)]> (graphs_dict items).
Proof. unfold DashboardPy.graphs_dict. by rewrite foldl_app. Qed.

(** In the dictionary of graphs an id stands for the last graph given
    under it. *)
Lemma graphs_dict_lookup (graphs : list (Graph Value Dataclass)) k :
  graphs_dict (details_of <$> graphs) !! k
  = graph_value <$> last (filter (λ g, graph_id g = k) graphs).
Proof.
  induction graphs as [|g graphs IH] using rev_ind; [done|].
  rewrite fmap_app, filter_app. cbn [fmap list_fmap]. rewrite graphs_dict_snoc.
  assert (details_id Value Dataclass (details_of g) = graph_id g
          ∧ info_value Value Dataclass asdict (info Value Dataclass (details_of g))
            = graph_value g)
    as [-> ->] by by destruct g.
  destruct (decide (graph_id g = k)) as [<-|Hne].
  - rewrite lookup_insert_eq, filter_cons_True by done. by rewrite filter_nil, last_snoc.
  - rewrite lookup_insert_ne, filter_cons_False by done. by rewrite filter_nil, app_nil_r.
Qed.

(** On a report whose first-level metrics all have a renderer, the
    dashboard is called [Report] and its widgets are those of the first-level
    metrics, concatenated in the order of the metrics; the dictionary of
    additional graphs has, under every id, the data of the last graph that
    any of these widgets gives under that id, and nothing else. *)
Theorem build_dashboard_info_widgets self uuid4_str :
  forallb (has_renderer (context (_inner_suite self))) (_first_level_metrics self) = true →
  ∃ dashboard_id graphs,
    build self uuid4_str
    = Ok (dashboard_id,
          {| name := "Report"; widgets := _first_level_metrics self ≫= widgets_of self |},
          graphs)
    ∧ ∀ k, graphs !! k
           = graph_value
               <$> last (filter (λ g, graph_id g = k)
                           ((_first_level_metrics self ≫= widgets_of self)
                              ≫= get_additional_graphs)).
Proof.
  intros Hl. unfold _build_dashboard_info. rewrite (render_tests_all _ _ _ _ Hl).
  cbn [mbind outcome_bind fst snd app]. do 2 eexists. split; [done|].
  intros k. apply graphs_dict_lookup.
Qed.

(** The dashboard stops at the first first-level metric for which no
    renderer is found, with the error of the lookup. *)
Theorem build_dashboard_info_unrenderable self uuid4_str pre test post e :
  _first_level_metrics self = pre ++ test :: post →
  forallb (has_renderer (context (_inner_suite self))) pre = true →
  find_metric_renderer test (renderers (context (_inner_suite self))) = Raise e →
  build self uuid4_str = Raise e.
Proof.
  intros Hflm Hpre Hf. unfold _build_dashboard_info.
  by rewrite Hflm, (render_tests_stops _ _ _ _ _ _ _ Hpre Hf).
Qed.

(** The identifier of a dashboard that is built is [evidently_dashboard_]
    followed by the characters of the fresh uuid other than [-]: it contains
    no [-], and every other character of the uuid is still in it. *)
Theorem build_dashboard_info_id self uuid4_str dashboard_id dashboard graphs :
  build self uuid4_str = Ok (dashboard_id, dashboard, graphs) →
  dashboard_id = "evidently_dashboard_" +:+ remove_dashes uuid4_str
  ∧ has_char "-" dashboard_id = false
  ∧ ∀ c, c ≠ "-"%char → has_char c uuid4_str = true → has_char c dashboard_id = true.
Proof.
  unfold _build_dashboard_info. destruct (DashboardPy.render_tests _ _ _ _ _ _ _ _ _ _ _ _)
    as [r|]; [|done].
  cbn [mbind outcome_bind]. intros [= <- _ _]. split; [done|]. split.
  - by rewrite has_char_app, remove_dashes_no_dash.
  - intros c Hc Hin. rewrite has_char_app, (remove_dashes_keeps _ _ Hc), Hin.
    apply orb_true_r.
Qed.

End Dashboard.

Import Examples MoreExamples.

Lemma build_dashboard_info_widgets_witness :
  ∃ dashboard_id graphs,
    _build_dashboard_info find_plain_renderer () string nat string (λ _, ())
      name_widgets String.length one_graph two_groups "1b4e-28ba"
    = Ok (dashboard_id, {| name := "Report"; widgets := ["MetricA"; "MetricB"; "MetricA"] |},
          graphs)
    ∧ graphs !! "MetricA" = Some 7%nat.
Proof.
  destruct (build_dashboard_info_widgets (H0 := plain_collaborators) find_plain_renderer
              () string nat string (λ _, ()) name_widgets String.length one_graph
              two_groups "1b4e-28ba" eq_refl) as (dashboard_id & graphs & Hbuild & Hgraphs).
  exists dashboard_id, graphs. split; [exact Hbuild|]. by rewrite Hgraphs.
Defined.

Lemma build_dashboard_info_unrenderable_witness :
  _build_dashboard_info find_plain_renderer () string nat string (λ _, ())
    name_widgets String.length one_graph unrenderable "1b4e-28ba"
  = Raise (KeyError "42").
Proof.
  exact (build_dashboard_info_unrenderable (H0 := plain_collaborators) find_plain_renderer
           () string nat string (λ _, ()) name_widgets String.length one_graph
           unrenderable "1b4e-28ba" [metric "MetricA"; metric "MetricA"] (AnObject "42")
           [metric "MetricB"] (KeyError "42") eq_refl eq_refl eq_refl).
Defined.

Lemma build_dashboard_info_id_witness :
  ∃ dashboard_id dashboard graphs,
    _build_dashboard_info find_plain_renderer () string nat string (λ _, ())
      name_widgets String.length one_graph two_groups "1b4e-28ba"
    = Ok (dashboard_id, dashboard, graphs)
    ∧ dashboard_id = "evidently_dashboard_1b4e28ba"
    ∧ has_char "-" dashboard_id = false.
Proof.
  assert (_build_dashboard_info find_plain_renderer () string nat string (λ _, ())
            name_widgets String.length one_graph two_groups "1b4e-28ba"
          = Ok ("evidently_dashboard_" +:+ remove_dashes "1b4e-28ba",
                {| name := "Report"; widgets := ["MetricA"; "MetricB"; "MetricA"] |},
                {[ "MetricA" := 7%nat; "MetricB" := 7%nat ]})) as Hbuild by reflexivity.
  destruct (build_dashboard_info_id (H0 := plain_collaborators) find_plain_renderer
              () string nat string (λ _, ()) name_widgets String.length one_graph
              two_groups "1b4e-28ba" _ _ _ Hbuild) as (Hid & Hdash & _).
  eexists _, _, _. split; [exact Hbuild|]. split; [exact Hid | exact Hdash].
Defined.

End DashboardFacts.

(** ** More on the row filter *)

Module MakeDfFacts.
Import Pandas PandasFacts PredictedVsActual RowFilterFacts.

Lemma has_column_false df name :
  has_column df name = false → column_pos name (columns df) = None.
Proof.
  unfold has_column. intros Hc%bool_decide_eq_false.
  destruct (column_pos name (columns df)); [|done]. by destruct Hc.
Qed.

Lemma has_column_true df name :
  has_column df name = true → ∃ i, column_pos name (columns df) = Some i.
Proof.
  unfold has_column. intros [i Hi]%bool_decide_eq_true. by exists i.
Qed.

Lemma make_df_for_plot_missing_column_aux df t p dt :
  match List.find (λ c, negb (has_column df c)) (t :: p :: option_list dt) with
  | None => is_Ok (_make_df_for_plot df t p dt) = true
  | Some c => _make_df_for_plot df t p dt = Raise (KeyError c)
  end.
Proof.
  unfold _make_df_for_plot, dropna, sort_values, option_list.
  destruct dt as [d|]; cbn [option_rect replace_inf columns positions List.find].
  - destruct (has_column df t) eqn:Ht; cbn [negb].
    2:{ by rewrite (has_column_false _ _ Ht). }
    destruct (has_column_true _ _ Ht) as [it ->].
    destruct (has_column df p) eqn:Hp; cbn [negb].
    2:{ by rewrite (has_column_false _ _ Hp). }
    destruct (has_column_true _ _ Hp) as [ip ->].
    destruct (has_column df d) eqn:Hd; cbn [negb].
    2:{ by rewrite (has_column_false _ _ Hd). }
    destruct (has_column_true _ _ Hd) as [id Hid]. rewrite Hid. cbn. by rewrite Hid.
  - destruct (has_column df t) eqn:Ht; cbn [negb].
    2:{ by rewrite (has_column_false _ _ Ht). }
    destruct (has_column_true _ _ Ht) as [it ->].
    destruct (has_column df p) eqn:Hp; cbn [negb].
    2:{ by rewrite (has_column_false _ _ Hp). }
    destruct (has_column_true _ _ Hp) as [ip ->]. done.
Qed.


(** What the row filter returns: the columns of the frame it was given; no
    row that is not the cleaned copy of a row of that frame, and no more rows
    than it has; no infinite value anywhere; no missing value in the target,
    the prediction and the datetime column; and rows in the required
    order. *)
Theorem make_df_for_plot_result df t p dt df' :
  _make_df_for_plot df t p dt = Ok df' →
  columns df' = columns df
  ∧ (∀ r, r ∈ rows df' → ∃ r0, r0 ∈ rows df ∧ r = clean r0)
  ∧ (length (rows df') ≤ length (rows df))%nat
  ∧ no_inf df' = true
  ∧ forallb (complete_column df') (t :: p :: option_list dt) = true
  ∧ ordered df' dt = true.
Proof.
  intros (ps & Hps & Hcols & Hrows & Hord)%make_df_for_plot_shape.
  assert (∀ r, r ∈ rows df' → complete_at ps r = true ∧ ∃ r0, r0 ∈ rows df ∧ r = clean r0)
    as Hr.
  { intros r Hin. rewrite Hrows in Hin. apply list_elem_of_In, filter_In in Hin as [Hin Hc].
    split; [done|]. apply in_map_iff in Hin as (r0 & <- & Hr0).
    exists r0. split; [by apply list_elem_of_In | done]. }
  split; [done|]. split; [intros r Hin; by apply Hr|]. split.
  { rewrite Hrows.
    pose proof (List.filter_length_le (complete_at ps) (map clean (rows df))) as Hle.
    by rewrite length_map in Hle. }
  split.
  { unfold no_inf. apply forallb_forall. intros r Hin%list_elem_of_In.
    destruct (Hr r Hin) as [_ (r0 & _ & ->)]. apply clean_no_inf. }
  split; [|done].
  apply forallb_forall. intros c Hc%list_elem_of_In.
  destruct (positions_lookup _ _ _ _ Hps Hc) as (i & Hi & Hin).
  unfold complete_column. rewrite Hcols, Hi. apply forallb_forall.
  intros r Hrin%list_elem_of_In. destruct (Hr r Hrin) as [Hc' _].
  unfold complete_at in Hc'. rewrite forallb_forall in Hc'.
  apply Hc'. by apply list_elem_of_In.
Qed.

Import Examples MoreExamples.

Lemma make_df_for_plot_result_witness :
  ∃ df', _make_df_for_plot unordered "target" "prediction" (Some "ts") = Ok df'
         ∧ rows df' = [row 3 [Finite 7; Finite 8; Finite 10];
                       row 0 [Finite 1; Finite 2; Finite 30]]
         ∧ no_inf df' = true
         ∧ ordered df' (Some "ts") = true.
Proof.
  eexists. split; [reflexivity|]. split; [reflexivity|].
  destruct (make_df_for_plot_result unordered "target" "prediction" (Some "ts") _ eq_refl)
    as (_ & _ & _ & Hinf & _ & Hord).
  split; [exact Hinf | exact Hord].
Defined.


End MakeDfFacts.

(** ** More on the scatter metric and its renderer *)

Module CalculateFacts.
Import Pandas PandasFacts PredictedVsActual PredictedVsActualFacts MakeDfFacts.

Section Calculate.
Context `{Columns}.

Local Abbreviation roles data :=
  (utility_columns (process_columns (current_data data) (column_mapping data))).

(** The two checks of the column roles come before anything else: without
    a target or a prediction role [calculate] raises the first error, with a
    list of prediction columns the second, whatever the tables hold and
    whether or not the data is aggregated. *)
Theorem calculate_column_roles extra self data :
  match target (roles data), prediction (roles data) with
  | None, _ | _, None =>
      calculate extra self data
      = Raise (ValueError "The columns 'target' and 'prediction' columns should be present")
  | Some _, Some (PredictionColumns _) =>
      calculate extra self data
      = Raise (ValueError "Expect one column for prediction. List of columns was provided.")
  | Some _, Some (PredictionColumn _) => True
  end.
Proof.
  unfold calculate.
  destruct (utility_columns (process_columns (current_data data) (column_mapping data)))
    as [d [t|] [[p|ps]|]]; cbn [target prediction]; done.
Qed.



Lemma series_labels i rs : map fst (series_of i rs) = map label rs.
Proof. unfold series_of. rewrite map_map. by apply map_ext. Qed.

Lemma raw_scatter_sound df t p s :
  (df' ← _make_df_for_plot df t p None; scatter_of df' t p) = Ok s →
  map fst (predicted s) = map fst (actual s)
  ∧ Forall (λ v, is_finite v.2 = true) (predicted s)
  ∧ Forall (λ v, is_finite v.2 = true) (actual s)
  ∧ (length (predicted s) ≤ length (rows df))%nat.
Proof.
  intros Hs.
  assert (has_column df t = true ∧ has_column df p = true) as [Ht Hp].
  { pose proof (make_df_for_plot_missing_column_aux df t p None) as Hm.
    unfold option_list in Hm. cbn [option_rect app List.find] in Hm.
    destruct (has_column df t); cbn [negb] in Hm |- *.
    - destruct (has_column df p); cbn [negb] in Hm |- *; [done|].
      by rewrite Hm in Hs.
    - by rewrite Hm in Hs. }
  rewrite (scatter_by_index df t p Ht Hp) in Hs. injection Hs as <-.
  cbn [predicted actual]. rewrite !series_labels. split; [done|].
  assert (∀ i, (i = pos df t ∨ i = pos df p) →
               Forall (λ v : Z * cell, is_finite v.2 = true)
                 (series_of i (spec_raw_rows df t p None))) as Hfin.
  { intros i Hi. unfold series_of. apply Forall_forall. intros v Hv.
    apply list_elem_of_In, in_map_iff in Hv as (r & <- & Hr%list_elem_of_In).
    apply kept_rows_finite in Hr as [? ?]. by destruct Hi as [->| ->]. }
  split; [apply Hfin; by right|]. split; [apply Hfin; by left|].
  unfold series_of, spec_raw_rows, kept_rows. rewrite length_map, sort_by_perm.
  apply List.filter_length_le.
Qed.

(** Every raw result that [calculate] returns is fit for plotting: the
    predicted and the actual series carry the same index labels in the same
    order, all their values are finite, and they have no more entries than
    the table has rows; the same holds of the reference side when there is
    one. *)
Theorem calculate_raw_sound extra self data r :
  agg_data (get_options self) = false →
  calculate extra self data = Ok r →
  ∃ cur,
    current r = RawScatter cur
    ∧ map fst (predicted cur) = map fst (actual cur)
    ∧ Forall (λ v, is_finite v.2 = true) (predicted cur)
    ∧ Forall (λ v, is_finite v.2 = true) (actual cur)
    ∧ (length (predicted cur) ≤ length (rows (current_data data)))%nat
    ∧ match reference_data data, reference r with
      | None, None => True
      | Some ref_df, Some (RawScatter ref) =>
          map fst (predicted ref) = map fst (actual ref)
          ∧ Forall (λ v, is_finite v.2 = true) (predicted ref)
          ∧ Forall (λ v, is_finite v.2 = true) (actual ref)
          ∧ (length (predicted ref) ≤ length (rows ref_df))%nat
      | _, _ => False
      end.
Proof.
  intros Hagg. unfold calculate.
  destruct (utility_columns (process_columns (current_data data) (column_mapping data)))
    as [d [t|] [[p|ps]|]]; cbn [target prediction]; try done.
  rewrite Hagg. cbn [negb].
  pose proof (raw_scatter_sound (current_data data) t p) as Hcur.
  destruct (_make_df_for_plot (current_data data) t p None) as [cur_df|];
    cbn [mbind outcome_bind] in Hcur |- *; [|done].
  destruct (scatter_of cur_df t p) as [cur|]; cbn [mbind outcome_bind]; [|done].
  specialize (Hcur cur eq_refl) as (Hl & Hp & Ha & Hlen).
  destruct (reference_data data) as [ref_df|].
  - pose proof (raw_scatter_sound ref_df t p) as Href.
    destruct (_make_df_for_plot ref_df t p None) as [ref_df'|];
      cbn [mbind outcome_bind] in Href |- *; [|done].
    destruct (scatter_of ref_df' t p) as [ref|]; cbn [mbind outcome_bind fmap outcome_fmap];
      [|done].
    specialize (Href ref eq_refl).
    destruct extra; cbn; intros [= <-]; exists cur; cbn; done.
  - destruct extra; cbn; intros [= <-]; exists cur; cbn; done.
Qed.

Lemma calculate_agg_result_aux extra self data r :
  agg_data (get_options self) = true →
  calculate extra self data = Ok r →
  r = {| current := AggScatter {| PredictedVsActual.data := {[ "a" := 1; "b" := 2 ]} |};
         reference := None |}.
Proof.
  intros Hagg. unfold calculate.
  destruct (utility_columns (process_columns (current_data data) (column_mapping data)))
    as [d [t|] [[p|ps]|]]; cbn [target prediction]; try done.
  rewrite Hagg. cbn [negb].
  destruct extra, (reference_data data); cbn; intros [= <-] || intros [=]; done.
Qed.

(** On the aggregated path the tables are not read: whenever a result is
    returned it is the same placeholder, with the current side
    [{"a": 1, "b": 2}] and without a reference side. *)
Theorem calculate_agg_result extra self data r :
  agg_data (get_options self) = true →
  calculate extra self data = Ok r →
  r = {| current := AggScatter {| PredictedVsActual.data := {[ "a" := 1; "b" := 2 ]} |};
         reference := None |}.
Proof. apply calculate_agg_result_aux. Qed.

End Calculate.

Section Render.
Import ScatterRenderer.
Context `{Columns} `{Plotting}.

(** The renderer reads the representation that [calculate] stored: for
    every result that [calculate] returns for a metric, [render_html] for the
    same metric succeeds and gives the header and one big graph.  For
    aggregated data the graph has the single bar series of the current side,
    also when reference data was given; for raw data it is the scatter plot
    of the current and the reference series of the result. *)
Theorem render_html_of_calculate extra renderer self data r :
  calculate extra self data = Ok r →
  ∃ fig,
    render_html renderer self r
    = Ok [header_text "Predicted vs Actual"; base_widget_info "" 2 "big_graph" fig]
    ∧ if agg_data (get_options self)
      then fig = go_Figure [go_Bar {[ "a" := 1; "b" := 2 ]}]
      else ∃ cur ref,
             current r = RawScatter cur
             ∧ reference r = RawScatter <$> ref
             ∧ fig = plot_scatter (scatter_as_dict (Some cur)) (scatter_as_dict ref)
                       "actual" "predicted" "Actual value" "Predicted value"
                       (color_options renderer).
Proof.
  intros Hr. unfold render_html. destruct (agg_data (get_options self)) eqn:Hagg.
  - rewrite (calculate_agg_result_aux _ _ _ _ Hagg Hr). cbn. by eexists.
  - revert Hr. unfold calculate.
    destruct (utility_columns (process_columns (current_data data) (column_mapping data)))
      as [d [t|] [[p|ps]|]]; cbn [target prediction]; try done.
    rewrite Hagg. cbn [negb].
    destruct (_make_df_for_plot (current_data data) t p None) as [cur_df|];
      cbn [mbind outcome_bind]; [|done].
    destruct (scatter_of cur_df t p) as [cur|]; cbn [mbind outcome_bind]; [|done].
    destruct (reference_data data) as [ref_df|].
    + destruct (_make_df_for_plot ref_df t p None) as [ref_df'|];
        cbn [mbind outcome_bind]; [|done].
      destruct (scatter_of ref_df' t p) as [ref|]; cbn [mbind outcome_bind fmap outcome_fmap];
        [|done].
      destruct extra; cbn; intros [= <-]; cbn; eexists; (split; [done|]);
        by exists cur, (Some ref).
    + destruct extra; cbn; intros [= <-]; cbn; eexists; (split; [done|]);
        by exists cur, None.
Qed.

End Render.

Import Examples MoreExamples.


Lemma calculate_raw_sound_witness :
  ∃ cur,
    current {| current := RawScatter
                 {| predicted := [(0, Finite (11#10)); (2, Finite (29#10))];
                    actual := [(0, Finite 1); (2, Finite 3)] |};
               reference := None |} = RawScatter cur
    ∧ map fst (predicted cur) = map fst (actual cur).
Proof.
  destruct (calculate_raw_sound ExtraIgnore raw_metric _ _ eq_refl calculate_drops_inf)
    as (cur & Hcur & Hlabels & _).
  by exists cur.
Defined.

Lemma calculate_agg_result_witness :
  ∃ r,
    calculate ExtraIgnore agg_metric (input (Some three_rows) one_column default_column_mapping)
    = Ok r
    ∧ r = {| current := AggScatter {| data := {[ "a" := 1; "b" := 2 ]} |};
             reference := None |}.
Proof.
  eexists. split; [reflexivity|].
  apply (calculate_agg_result ExtraIgnore agg_metric
           (input (Some three_rows) one_column default_column_mapping)); reflexivity.
Defined.

Lemma render_html_of_calculate_witness :
  ScatterRenderer.render_html plain_scatter_renderer agg_metric
    {| current := AggScatter {| data := {[ "a" := 1; "b" := 2 ]} |}; reference := None |}
  = Ok [inl "Predicted vs Actual"; inr (inl [{[ "a" := 1; "b" := 2 ]}])].
Proof.
  assert (calculate ExtraIgnore agg_metric
            (input (Some three_rows) three_rows default_column_mapping)
          = Ok {| current := AggScatter {| data := {[ "a" := 1; "b" := 2 ]} |};
                  reference := None |}) as Hcalc by reflexivity.
  destruct (render_html_of_calculate ExtraIgnore plain_scatter_renderer agg_metric _ _ Hcalc)
    as (fig & Hrender & Hfig).
  cbn in Hfig. by rewrite Hrender, Hfig.
Defined.

End CalculateFacts.
